(** * Voice shopping assistant: client-side session logic

    A shallow embedding of the browser-side components of the voice
    shopping assistant:

    - [VoiceChat]             components/VoiceChat.tsx (streaming chat with
                              PCM capture) and its earlier MediaRecorder
                              variant, which share one component state;
    - [ShopifyVoiceAssistant] src/ShopifyVoiceAssistant.tsx;
    - [Prototype]             the first ShopifyVoiceAssistant prototype,
                              which runs the mock pipeline only;
    - [Retriever]             the merge policy of the server-side retriever.

    React state is a record; every event handler is a function from the
    state it finds to the state it leaves, paired with the effects it
    issues (alerts, WebSocket frames, HTTP requests, timers).  An [async]
    handler is cut at its [await]s: the outcome of the awaited operation is
    an argument of the part that resumes.  Values a handler reads through a
    closure that outlives the render which created it are stored with the
    object that owns the handler.  Console logging is left out. *)

From Stdlib Require Import List Bool NArith ZArith QArith String Ascii Lia.
Import ListNotations.

Set Implicit Arguments.

(* ================================================================== *)
(** ** JavaScript strings *)
(* ================================================================== *)

Module JS.

(** A JavaScript string is a sequence of UTF-16 code units. *)
Definition code_unit := N.
Definition jsstring := list code_unit.

(** ASCII literals. *)
Definition lit (s : string) : jsstring :=
  map N_of_ascii (list_ascii_of_string s).

(** The [WhiteSpace] and [LineTerminator] code points of ECMAScript:
    what [String.prototype.trim] strips. *)
Definition is_white_space (c : code_unit) : bool :=
  ((c =? 0x9) || (c =? 0xA) || (c =? 0xB) || (c =? 0xC) || (c =? 0xD)
   || (c =? 0x20) || (c =? 0xA0) || (c =? 0x1680)
   || ((0x2000 <=? c) && (c <=? 0x200A))
   || (c =? 0x2028) || (c =? 0x2029) || (c =? 0x202F) || (c =? 0x205F)
   || (c =? 0x3000) || (c =? 0xFEFF))%N.

Fixpoint trimStart (s : jsstring) : jsstring :=
  match s with
  | c :: s' => if is_white_space c then trimStart s' else s
  | [] => []
  end.

Definition trimEnd (s : jsstring) : jsstring := rev (trimStart (rev s)).

(** [s.trim()] *)
Definition trim (s : jsstring) : jsstring := trimEnd (trimStart s).

(** Truthiness of a string: every string but the empty one. *)
Definition truthy (s : jsstring) : bool :=
  match s with [] => false | _ :: _ => true end.

(** [a || b] on strings. *)
Definition or_else (a b : jsstring) : jsstring := if truthy a then a else b.

(** [a === b] on strings. *)
Definition eqb (a b : jsstring) : bool :=
  if list_eq_dec N.eq_dec a b then true else false.

(** [a || b] where [a] may be [undefined]. *)
Definition opt_or_else (a : option jsstring) (b : jsstring) : jsstring :=
  match a with Some s => or_else s b | None => b end.

(** [a || []] where [a] is an array or [undefined]: arrays are truthy. *)
Definition array_or_empty {A} (a : option (list A)) : list A :=
  match a with Some l => l | None => [] end.

End JS.

Import JS.

(* ================================================================== *)
(** ** Numbers of the PCM encoder *)
(* ================================================================== *)

(** The samples of a Web Audio input buffer are [Float32Array] elements.
    A finite one is a dyadic rational with a 24-bit significand, so its
    product with [0x8000] or [0x7FFF] needs at most 39 bits and is exact in
    binary64: on finite samples the arithmetic of the encoder is the
    arithmetic of rationals.  [NaN] and the infinities are kept apart; the
    two zeros, which the encoder cannot tell apart, are one. *)

Module Num.

Inductive number :=
| NaN
| NegInf
| PosInf
| Fin (q : Q).

Definition Qltb (x y : Q) : bool := (Qnum x * QDen y <? Qnum y * QDen x)%Z.

(** [a < b]; false as soon as one side is [NaN]. *)
Definition lt (a b : number) : bool :=
  match a, b with
  | NaN, _ | _, NaN => false
  | _, NegInf => false
  | NegInf, _ => true
  | PosInf, _ => false
  | Fin _, PosInf => true
  | Fin x, Fin y => Qltb x y
  end.

Definition Math_min (a b : number) : number :=
  match a, b with
  | NaN, _ | _, NaN => NaN
  | _, _ => if lt b a then b else a
  end.

Definition Math_max (a b : number) : number :=
  match a, b with
  | NaN, _ | _, NaN => NaN
  | _, _ => if lt a b then b else a
  end.

(** [a * c] for a finite, positive constant [c]. *)
Definition scale (a : number) (c : Q) : number :=
  match a with
  | Fin q => Fin (q * c)
  | other => other
  end.

(** Truncation towards zero. *)
Definition truncate (q : Q) : Z := Z.quot (Qnum q) (QDen q).

(** [ToInt16]: what storing a number into an [Int16Array] does. *)
Definition ToInt16 (x : number) : Z :=
  match x with
  | Fin q =>
      let int16bit := (truncate q mod 65536)%Z in
      if (32768 <=? int16bit)%Z then (int16bit - 65536)%Z else int16bit
  | _ => 0%Z
  end.

End Num.

(* ================================================================== *)
(** ** HTTP outcomes *)
(* ================================================================== *)

(** What awaiting [fetch] and then [response.json()] can come to. *)
Inductive Response (A : Type) :=
| Rejected (message : jsstring)        (* fetch or json() rejects *)
| NotOk (status : N) (detail : option jsstring)
| Ok (data : A).

Arguments Rejected {A} message.
Arguments NotOk {A} status detail.
Arguments Ok {A} data.

(** The request did not come back with an OK reply. *)
Definition failed {A} (r : Response A) : bool :=
  match r with
  | Ok _ => false
  | NotOk _ _ | Rejected _ => true
  end.

(* ================================================================== *)
(** ** Event handlers *)
(* ================================================================== *)

(** A handler takes the component state it finds to the state it leaves
    and lists the effects it issued, in order. *)

Section Handlers.

Variables S E : Type.

Definition handler := S -> S * list E.

Definition andThen (h k : handler) : handler :=
  fun s => let (s1, e1) := h s in let (s2, e2) := k s1 in (s2, e1 ++ e2).

Definition update (f : S -> S) : handler := fun s => (f s, []).

Definition emit (e : E) : handler := fun s => (s, [e]).

Definition skip : handler := fun s => (s, []).

Definition when (b : bool) (h : handler) : handler := if b then h else skip.

End Handlers.

Arguments skip {S E}.
Arguments emit {S E} e.
Arguments update {S E} f.

Notation "h ;; k" := (andThen h k) (at level 61, right associativity).

(* ================================================================== *)
(** ** VoiceChat: the streaming chat component *)
(* ================================================================== *)

Module VoiceChat.

Record VoiceSettings := {
  voiceId : jsstring;
  language : jsstring
}.

Record VoiceOption := {
  vo_id : jsstring;
  vo_name : jsstring;
  vo_language : jsstring
}.

Record AgentDocument := {
  title : option jsstring;
  price : option Q;
  brand : option jsstring;
  source : option jsstring
}.

(** [Record<string, any>]: keys with their serialised values. *)
Definition JsObject := list (jsstring * jsstring).

Record AgentMetadata := {
  citations : list jsstring;
  retrievedDocs : list AgentDocument;
  plan : JsObject
}.

Inductive Role := user | assistant.

(** Message identifiers are built from the clock:
    [Date.now().toString()], [`agent-${Date.now()}`] and
    [`agent-error-${Date.now()}`]. *)
Inductive MessageId :=
| id_now (t : N)
| id_agent (t : N)
| id_agent_error (t : N).

Record Message := {
  msg_id : MessageId;
  role : Role;
  content : jsstring;
  timestamp : N;
  isVoiceInput : option bool;
  metadata : option AgentMetadata
}.

(** The body of a reply of [/api/agent]; a field the server left out is
    [None]. *)
Record AgentAPIResponse := {
  r_query : option jsstring;
  r_answer : option jsstring;
  r_citations : option (list jsstring);
  r_plan : option JsObject;
  r_retrieved_docs : option (list AgentDocument);
  r_step_log : option (list JsObject)
}.

Inductive Status := ready | recording | transcribing | playing.

Inductive ReadyState := CONNECTING | OPEN | CLOSING | CLOSED.

(** A socket, with the agent language its [onmessage] handler closed over
    when the socket was created. *)
Record WebSocket := {
  readyState : ReadyState;
  ws_agentLanguage : jsstring
}.

Definition is_open (ws : option WebSocket) : bool :=
  match ws with
  | Some {| readyState := OPEN |} => true
  | _ => false
  end.

(** The script processor, with the user language its [onaudioprocess]
    handler closed over. *)
Record Processor := {
  proc_userLanguage : jsstring
}.

Inductive RecorderState := inactive | rec_recording | rec_paused.

(** The recorder of the MediaRecorder variant, with the user language its
    [onstop] handler closed over. *)
Record MediaRecorder := {
  mr_state : RecorderState;
  mr_userLanguage : jsstring
}.

Definition FALLBACK_LANGUAGES : list jsstring :=
  [lit "en"; lit "zh"; lit "es"; lit "fr"; lit "de"; lit "ja"].

Definition DEFAULT_VOICES : list VoiceOption :=
  [ {| vo_id := lit "21m00Tcm4TlvDq8ikWAM"; vo_name := lit "Rachel"; vo_language := lit "en" |};
    {| vo_id := lit "pNInz6obpgDQGcFmaJgB"; vo_name := lit "Adam"; vo_language := lit "en" |};
    {| vo_id := lit "EXAVITQu4vr4xnSDxMaL"; vo_name := lit "Bella"; vo_language := lit "en" |};
    {| vo_id := lit "ErXwobaYiN019PkySvjV"; vo_name := lit "Antoni"; vo_language := lit "en" |} ].

(** Component state ([useState]) followed by the references ([useRef]). *)
Record State := {
  messages : list Message;
  input : jsstring;
  userSettings : VoiceSettings;
  agentSettings : VoiceSettings;
  availableVoices : list VoiceOption;
  isRecording : bool;
  isTranscribing : bool;
  realtimeTranscript : jsstring;
  isAgentResponding : bool;
  status : Status;
  wsRef : option WebSocket;
  mediaRecorderRef : option MediaRecorder;
  processorRef : option Processor;
  audioContextRef : bool;      (* non-null *)
  audioStreamRef : bool;       (* non-null *)
  isRecordingRef : bool
}.

Definition initial : State :=
  {| messages := []; input := [];
     userSettings := {| voiceId := lit "21m00Tcm4TlvDq8ikWAM"; language := lit "en" |};
     agentSettings := {| voiceId := lit "pNInz6obpgDQGcFmaJgB"; language := lit "en" |};
     availableVoices := DEFAULT_VOICES;
     isRecording := false; isTranscribing := false; realtimeTranscript := [];
     isAgentResponding := false; status := ready;
     wsRef := None; mediaRecorderRef := None; processorRef := None;
     audioContextRef := false; audioStreamRef := false; isRecordingRef := false |}.

Definition set_messages v (s : State) : State :=
  {| messages := v; input := input s; userSettings := userSettings s;
     agentSettings := agentSettings s; availableVoices := availableVoices s;
     isRecording := isRecording s; isTranscribing := isTranscribing s;
     realtimeTranscript := realtimeTranscript s;
     isAgentResponding := isAgentResponding s; status := status s;
     wsRef := wsRef s; mediaRecorderRef := mediaRecorderRef s;
     processorRef := processorRef s; audioContextRef := audioContextRef s;
     audioStreamRef := audioStreamRef s;
     isRecordingRef := isRecordingRef s |}.
Definition set_input v (s : State) : State :=
  {| messages := messages s; input := v; userSettings := userSettings s;
     agentSettings := agentSettings s; availableVoices := availableVoices s;
     isRecording := isRecording s; isTranscribing := isTranscribing s;
     realtimeTranscript := realtimeTranscript s;
     isAgentResponding := isAgentResponding s; status := status s;
     wsRef := wsRef s; mediaRecorderRef := mediaRecorderRef s;
     processorRef := processorRef s; audioContextRef := audioContextRef s;
     audioStreamRef := audioStreamRef s;
     isRecordingRef := isRecordingRef s |}.
Definition set_userSettings v (s : State) : State :=
  {| messages := messages s; input := input s; userSettings := v;
     agentSettings := agentSettings s; availableVoices := availableVoices s;
     isRecording := isRecording s; isTranscribing := isTranscribing s;
     realtimeTranscript := realtimeTranscript s;
     isAgentResponding := isAgentResponding s; status := status s;
     wsRef := wsRef s; mediaRecorderRef := mediaRecorderRef s;
     processorRef := processorRef s; audioContextRef := audioContextRef s;
     audioStreamRef := audioStreamRef s;
     isRecordingRef := isRecordingRef s |}.
Definition set_agentSettings v (s : State) : State :=
  {| messages := messages s; input := input s;
     userSettings := userSettings s; agentSettings := v;
     availableVoices := availableVoices s; isRecording := isRecording s;
     isTranscribing := isTranscribing s;
     realtimeTranscript := realtimeTranscript s;
     isAgentResponding := isAgentResponding s; status := status s;
     wsRef := wsRef s; mediaRecorderRef := mediaRecorderRef s;
     processorRef := processorRef s; audioContextRef := audioContextRef s;
     audioStreamRef := audioStreamRef s;
     isRecordingRef := isRecordingRef s |}.
Definition set_availableVoices v (s : State) : State :=
  {| messages := messages s; input := input s;
     userSettings := userSettings s; agentSettings := agentSettings s;
     availableVoices := v; isRecording := isRecording s;
     isTranscribing := isTranscribing s;
     realtimeTranscript := realtimeTranscript s;
     isAgentResponding := isAgentResponding s; status := status s;
     wsRef := wsRef s; mediaRecorderRef := mediaRecorderRef s;
     processorRef := processorRef s; audioContextRef := audioContextRef s;
     audioStreamRef := audioStreamRef s;
     isRecordingRef := isRecordingRef s |}.
Definition set_isRecording v (s : State) : State :=
  {| messages := messages s; input := input s;
     userSettings := userSettings s; agentSettings := agentSettings s;
     availableVoices := availableVoices s; isRecording := v;
     isTranscribing := isTranscribing s;
     realtimeTranscript := realtimeTranscript s;
     isAgentResponding := isAgentResponding s; status := status s;
     wsRef := wsRef s; mediaRecorderRef := mediaRecorderRef s;
     processorRef := processorRef s; audioContextRef := audioContextRef s;
     audioStreamRef := audioStreamRef s;
     isRecordingRef := isRecordingRef s |}.
Definition set_isTranscribing v (s : State) : State :=
  {| messages := messages s; input := input s;
     userSettings := userSettings s; agentSettings := agentSettings s;
     availableVoices := availableVoices s; isRecording := isRecording s;
     isTranscribing := v; realtimeTranscript := realtimeTranscript s;
     isAgentResponding := isAgentResponding s; status := status s;
     wsRef := wsRef s; mediaRecorderRef := mediaRecorderRef s;
     processorRef := processorRef s; audioContextRef := audioContextRef s;
     audioStreamRef := audioStreamRef s;
     isRecordingRef := isRecordingRef s |}.
Definition set_realtimeTranscript v (s : State) : State :=
  {| messages := messages s; input := input s;
     userSettings := userSettings s; agentSettings := agentSettings s;
     availableVoices := availableVoices s; isRecording := isRecording s;
     isTranscribing := isTranscribing s; realtimeTranscript := v;
     isAgentResponding := isAgentResponding s; status := status s;
     wsRef := wsRef s; mediaRecorderRef := mediaRecorderRef s;
     processorRef := processorRef s; audioContextRef := audioContextRef s;
     audioStreamRef := audioStreamRef s;
     isRecordingRef := isRecordingRef s |}.
Definition set_isAgentResponding v (s : State) : State :=
  {| messages := messages s; input := input s;
     userSettings := userSettings s; agentSettings := agentSettings s;
     availableVoices := availableVoices s; isRecording := isRecording s;
     isTranscribing := isTranscribing s;
     realtimeTranscript := realtimeTranscript s; isAgentResponding := v;
     status := status s; wsRef := wsRef s;
     mediaRecorderRef := mediaRecorderRef s; processorRef := processorRef s;
     audioContextRef := audioContextRef s;
     audioStreamRef := audioStreamRef s;
     isRecordingRef := isRecordingRef s |}.
Definition set_status v (s : State) : State :=
  {| messages := messages s; input := input s;
     userSettings := userSettings s; agentSettings := agentSettings s;
     availableVoices := availableVoices s; isRecording := isRecording s;
     isTranscribing := isTranscribing s;
     realtimeTranscript := realtimeTranscript s;
     isAgentResponding := isAgentResponding s; status := v; wsRef := wsRef s;
     mediaRecorderRef := mediaRecorderRef s; processorRef := processorRef s;
     audioContextRef := audioContextRef s;
     audioStreamRef := audioStreamRef s;
     isRecordingRef := isRecordingRef s |}.
Definition set_wsRef v (s : State) : State :=
  {| messages := messages s; input := input s;
     userSettings := userSettings s; agentSettings := agentSettings s;
     availableVoices := availableVoices s; isRecording := isRecording s;
     isTranscribing := isTranscribing s;
     realtimeTranscript := realtimeTranscript s;
     isAgentResponding := isAgentResponding s; status := status s;
     wsRef := v; mediaRecorderRef := mediaRecorderRef s;
     processorRef := processorRef s; audioContextRef := audioContextRef s;
     audioStreamRef := audioStreamRef s;
     isRecordingRef := isRecordingRef s |}.
Definition set_mediaRecorderRef v (s : State) : State :=
  {| messages := messages s; input := input s;
     userSettings := userSettings s; agentSettings := agentSettings s;
     availableVoices := availableVoices s; isRecording := isRecording s;
     isTranscribing := isTranscribing s;
     realtimeTranscript := realtimeTranscript s;
     isAgentResponding := isAgentResponding s; status := status s;
     wsRef := wsRef s; mediaRecorderRef := v; processorRef := processorRef s;
     audioContextRef := audioContextRef s;
     audioStreamRef := audioStreamRef s;
     isRecordingRef := isRecordingRef s |}.
Definition set_processorRef v (s : State) : State :=
  {| messages := messages s; input := input s;
     userSettings := userSettings s; agentSettings := agentSettings s;
     availableVoices := availableVoices s; isRecording := isRecording s;
     isTranscribing := isTranscribing s;
     realtimeTranscript := realtimeTranscript s;
     isAgentResponding := isAgentResponding s; status := status s;
     wsRef := wsRef s; mediaRecorderRef := mediaRecorderRef s;
     processorRef := v; audioContextRef := audioContextRef s;
     audioStreamRef := audioStreamRef s;
     isRecordingRef := isRecordingRef s |}.
Definition set_audioContextRef v (s : State) : State :=
  {| messages := messages s; input := input s;
     userSettings := userSettings s; agentSettings := agentSettings s;
     availableVoices := availableVoices s; isRecording := isRecording s;
     isTranscribing := isTranscribing s;
     realtimeTranscript := realtimeTranscript s;
     isAgentResponding := isAgentResponding s; status := status s;
     wsRef := wsRef s; mediaRecorderRef := mediaRecorderRef s;
     processorRef := processorRef s; audioContextRef := v;
     audioStreamRef := audioStreamRef s;
     isRecordingRef := isRecordingRef s |}.
Definition set_audioStreamRef v (s : State) : State :=
  {| messages := messages s; input := input s;
     userSettings := userSettings s; agentSettings := agentSettings s;
     availableVoices := availableVoices s; isRecording := isRecording s;
     isTranscribing := isTranscribing s;
     realtimeTranscript := realtimeTranscript s;
     isAgentResponding := isAgentResponding s; status := status s;
     wsRef := wsRef s; mediaRecorderRef := mediaRecorderRef s;
     processorRef := processorRef s; audioContextRef := audioContextRef s;
     audioStreamRef := v; isRecordingRef := isRecordingRef s |}.
Definition set_isRecordingRef v (s : State) : State :=
  {| messages := messages s; input := input s;
     userSettings := userSettings s; agentSettings := agentSettings s;
     availableVoices := availableVoices s; isRecording := isRecording s;
     isTranscribing := isTranscribing s;
     realtimeTranscript := realtimeTranscript s;
     isAgentResponding := isAgentResponding s; status := status s;
     wsRef := wsRef s; mediaRecorderRef := mediaRecorderRef s;
     processorRef := processorRef s; audioContextRef := audioContextRef s;
     audioStreamRef := audioStreamRef s; isRecordingRef := v |}.

(** *** Messages on the wire and effects *)

Inductive ClientMessage :=
| audio (data : list Z) (lang : jsstring)     (* the PCM samples, sent base64-encoded *)
| stop (lang : jsstring).

Inductive ServerMessage :=
| transcript (text : jsstring) (is_final : bool)
| error (message : jsstring)
| unknown.

Inductive Effect :=
| alert (message : jsstring)
| ws_send (m : ClientMessage)
| fetch_agent (text lang : jsstring)          (* POST /api/agent *)
| processor_disconnect
| audio_context_close
| stream_stop_tracks
| media_recorder_stop.

Definition Handler := handler State Effect.

(** *** The agent request *)

(** [requestAgentResponse], up to its [await fetch]: [agentLanguage] is the
    [agentSettings.language] of the closure that calls it. *)
Definition requestAgentResponse (agentLanguage queryText : jsstring) : Handler :=
  let trimmed := trim queryText in
  if negb (truthy trimmed) then skip
  else update (set_isAgentResponding true) ;; emit (fetch_agent trimmed agentLanguage).

Definition aiMessage (now : N) (data : AgentAPIResponse) : Message :=
  {| msg_id := id_agent now;
     role := assistant;
     content := opt_or_else (r_answer data)
                  (lit "I couldn't find an answer yet, please try again.");
     timestamp := now;
     isVoiceInput := None;
     metadata := Some {| citations := array_or_empty (r_citations data);
                         retrievedDocs := array_or_empty (r_retrieved_docs data);
                         plan := array_or_empty (r_plan data) |} |}.

Definition fallbackMessage (now : N) : Message :=
  {| msg_id := id_agent_error now;
     role := assistant;
     content := lit "I'm having trouble reaching the product agent right now.";
     timestamp := now;
     isVoiceInput := None;
     metadata := None |}.

(** [requestAgentResponse] from the point where the request has settled:
    the [try] body on a reply with an OK status, the [catch] otherwise,
    then the [finally]. *)
Definition requestAgentResponse_settled (now : N) (r : Response AgentAPIResponse) : Handler :=
  let message :=
    match r with
    | Ok data => aiMessage now data
    | NotOk _ _ | Rejected _ => fallbackMessage now
    end in
  update (fun s => set_messages (messages s ++ [message]) s) ;;
  update (set_isAgentResponding false).

(** *** The voices *)

Definition syncSettingsWithVoices (voices : list VoiceOption)
    (prev : VoiceSettings) (fallback : option VoiceOption) : VoiceSettings :=
  match find (fun voice => eqb (vo_id voice) (voiceId prev)) voices with
  | Some voiceMatch =>
      if truthy (vo_language voiceMatch)
         && negb (eqb (vo_language voiceMatch) (language prev))
      then {| voiceId := voiceId prev; language := vo_language voiceMatch |}
      else prev
  | None =>
      match fallback with
      | Some fb => {| voiceId := vo_id fb;
                      language := or_else (vo_language fb) (language prev) |}
      | None => prev
      end
  end.

(** [a || b] on array elements that may be [undefined]. *)
Definition voice_or (a b : option VoiceOption) : option VoiceOption :=
  match a with Some _ => a | None => b end.

(** [fetchVoices] once [/api/voices] has settled; the body of an OK reply
    is an array of voices or [null]. *)
Definition fetchVoices (r : Response (option (list VoiceOption))) : Handler :=
  match r with
  | Ok (Some voices) =>
      if (0 <? List.length voices)%nat then
        update (set_availableVoices voices) ;;
        update (fun s => set_userSettings
                  (syncSettingsWithVoices voices (userSettings s) (nth_error voices 0)) s) ;;
        update (fun s => set_agentSettings
                  (syncSettingsWithVoices voices (agentSettings s)
                     (voice_or (nth_error voices 1) (nth_error voices 0))) s)
      else update (set_availableVoices DEFAULT_VOICES)
  | Ok None => update (set_availableVoices DEFAULT_VOICES)
  | NotOk _ _ => update (set_availableVoices DEFAULT_VOICES)
  | Rejected _ => update (set_availableVoices DEFAULT_VOICES)
  end.

(** *** The streaming channel *)

(** [connectWebSocket]: an open socket is kept, otherwise a new one is
    created, whose handlers close over the current render. *)
Definition connectWebSocket : Handler :=
  fun s =>
    if is_open (wsRef s) then skip s
    else update (set_wsRef (Some {| readyState := CONNECTING;
                                    ws_agentLanguage := language (agentSettings s) |})) s.

Definition userMessage (now : N) (text : jsstring) (voice : bool) : Message :=
  {| msg_id := id_now now;
     role := user;
     content := text;
     timestamp := now;
     isVoiceInput := Some voice;
     metadata := None |}.

(** [ws.onmessage] of the socket [ws], on the parsed frame [data]. *)
Definition ws_onmessage (ws : WebSocket) (now : N) (data : ServerMessage) : Handler :=
  match data with
  | transcript text is_final =>
      update (set_isTranscribing false) ;;
      update (set_status ready) ;;
      if is_final && truthy text then
        (* Add final transcript as user message *)
        update (fun s => set_messages (messages s ++ [userMessage now text true]) s) ;;
        update (set_realtimeTranscript []) ;;
        requestAgentResponse (ws_agentLanguage ws) text
      else if negb is_final then
        (* Update realtime transcript *)
        update (set_realtimeTranscript text)
      else skip
  | error _ =>
      update (set_isTranscribing false) ;;
      update (set_status ready) ;;
      update (set_realtimeTranscript [])
  | unknown => skip
  end.

Definition ws_onerror : Handler :=
  update (set_isTranscribing false) ;; update (set_status ready).

Definition ws_onclose : Handler := update (set_wsRef None).

(** The browser opening the socket that [wsRef] holds. *)
Definition ws_opened : Handler :=
  update (fun s =>
    match wsRef s with
    | Some ws => set_wsRef (Some {| readyState := OPEN;
                                    ws_agentLanguage := ws_agentLanguage ws |}) s
    | None => s
    end).

(** *** Text input *)

Definition sendTextMessage (now : N) : Handler :=
  fun s =>
    if negb (truthy (trim (input s))) then skip s
    else
      (update (fun s => set_messages (messages s ++ [userMessage now (input s) false]) s) ;;
       update (set_input []) ;;
       requestAgentResponse (language (agentSettings s)) (input s)) s.

(** *** The PCM encoder *)

Import Num.

(** One iteration of the conversion loop of [onaudioprocess]. *)
Definition pcm_clamp (x : number) : number :=
  Math_max (Fin (-1)) (Math_min (Fin 1) x).

Definition pcm_scaled (x : number) : number :=
  let s := pcm_clamp x in
  if lt s (Fin 0) then scale s 0x8000 else scale s 0x7FFF.

Definition pcm_sample (x : number) : Z := ToInt16 (pcm_scaled x).

(** The [Int16Array] the loop fills from the input buffer. *)
Definition pcmData (inputData : list number) : list Z := map pcm_sample inputData.

(** What the clamp leaves: [NaN] for [NaN], a number of [[-1, 1]]
    otherwise. *)
Inductive clamped : number -> Prop :=
| clamped_nan : clamped NaN
| clamped_fin q : -1 <= q <= 1 -> clamped (Fin q).

(** [fits_int16 x v]: [ToInt16] stores [x] as [v] without wrapping
    around. *)
Inductive fits_int16 : number -> Z -> Prop :=
| fits_nan : fits_int16 NaN 0
| fits_fin q : -32768 <= q <= 32767 -> fits_int16 (Fin q) (truncate q).

(** [processor.onaudioprocess] *)
Definition onaudioprocess (p : Processor) (inputData : list number) : Handler :=
  fun s =>
    if negb (isRecordingRef s) || negb (is_open (wsRef s)) then skip s
    else emit (ws_send (audio (pcmData inputData) (proc_userLanguage p))) s.

(** *** Recording *)

Inductive Microphone := granted | denied.

(** [startRecording] up to the wait for the socket; a refused microphone
    makes [getUserMedia] reject. *)
Definition startRecording (mic : Microphone) : Handler :=
  match mic with
  | denied => emit (alert (lit "Failed to access microphone. Please check permissions."))
  | granted => update (set_audioStreamRef true) ;; connectWebSocket
  end.

(** [startRecording] from the point where the socket is seen open;
    [userLanguage] is the language of the render that started it. *)
Definition startRecording_ready (userLanguage : jsstring) : Handler :=
  update (set_audioContextRef true) ;;
  update (set_processorRef (Some {| proc_userLanguage := userLanguage |})) ;;
  update (set_isRecording true) ;;
  update (set_isRecordingRef true) ;;
  update (set_status recording) ;;
  update (set_realtimeTranscript []).

(** [stopRecording] *)
Definition stopRecording : Handler :=
  fun s =>
    (update (set_isRecording false) ;;
     update (set_isRecordingRef false) ;;
     (* Disconnect AudioContext processor *)
     when (match processorRef s with Some _ => true | None => false end)
          (emit processor_disconnect ;; update (set_processorRef None)) ;;
     (* Close AudioContext *)
     when (audioContextRef s)
          (emit audio_context_close ;; update (set_audioContextRef false)) ;;
     (* Stop media stream *)
     when (audioStreamRef s)
          (emit stream_stop_tracks ;; update (set_audioStreamRef false)) ;;
     (* Send stop signal to WebSocket *)
     when (is_open (wsRef s))
          (emit (ws_send (stop (language (userSettings s))))) ;;
     update (set_isTranscribing true) ;;
     update (set_status transcribing)) s.

(** *** The MediaRecorder variant *)

Module Recorder.

(** [stopRecording]: stops the recorder unless it is inactive; the
    recorder then fires [onstop]. *)
Definition stopRecording : Handler :=
  fun s =>
    match mediaRecorderRef s with
    | Some mr =>
        match mr_state mr with
        | inactive => skip s
        | _ => (emit media_recorder_stop ;;
                update (set_mediaRecorderRef
                          (Some {| mr_state := inactive;
                                   mr_userLanguage := mr_userLanguage mr |}))) s
        end
    | None => skip s
    end.

(** [mediaRecorder.onstop] of the recorder [mr]. *)
Definition onstop (mr : MediaRecorder) : Handler :=
  fun s =>
    (emit stream_stop_tracks ;;
     (* Send stop signal *)
     when (is_open (wsRef s)) (emit (ws_send (stop (mr_userLanguage mr)))) ;;
     update (set_isRecording false) ;;
     update (set_isTranscribing true) ;;
     update (set_status transcribing)) s.

End Recorder.

(** *** Runs *)

(** The frames among the effects of a handler. *)
Definition sent (effects : list Effect) : list ClientMessage :=
  flat_map (fun e => match e with ws_send m => [m] | _ => [] end) effects.

(** The agent requests among the effects of a handler. *)
Definition requested (effects : list Effect) : list jsstring :=
  flat_map (fun e => match e with fetch_agent text _ => [text] | _ => [] end) effects.

Inductive Event :=
| ev_message (ws : WebSocket) (now : N) (data : ServerMessage)
| ev_ws_error
| ev_ws_close
| ev_ws_opened
| ev_agent_settled (now : N) (r : Response AgentAPIResponse)
| ev_voices (r : Response (option (list VoiceOption)))
| ev_input (text : jsstring)                       (* typing into the text box *)
| ev_send_text (now : N)
| ev_start (mic : Microphone)
| ev_start_ready (userLanguage : jsstring)
| ev_stop
| ev_audio (p : Processor) (inputData : list number).

Definition handle (e : Event) : Handler :=
  match e with
  | ev_message ws now data => ws_onmessage ws now data
  | ev_ws_error => ws_onerror
  | ev_ws_close => ws_onclose
  | ev_ws_opened => ws_opened
  | ev_agent_settled now r => requestAgentResponse_settled now r
  | ev_voices r => fetchVoices r
  | ev_input text => update (set_input text)
  | ev_send_text now => sendTextMessage now
  | ev_start mic => startRecording mic
  | ev_start_ready l => startRecording_ready l
  | ev_stop => stopRecording
  | ev_audio p d => onaudioprocess p d
  end.

Fixpoint run (events : list Event) : Handler :=
  match events with
  | [] => skip
  | e :: rest => handle e ;; run rest
  end.

(** The texts the Transcript Source delivered with the final flag set
    (an empty text is no segment). *)
Fixpoint final_segments (events : list Event) : list jsstring :=
  match events with
  | [] => []
  | ev_message _ _ (transcript text true) :: rest =>
      if truthy text then text :: final_segments rest else final_segments rest
  | _ :: rest => final_segments rest
  end.

(** The texts of the messages that came in by voice. *)
Definition voice_inputs (ms : list Message) : list jsstring :=
  map content (filter (fun m => match isVoiceInput m with Some true => true | _ => false end) ms).

End VoiceChat.

(* ================================================================== *)
(** ** The result shape and the mock result *)
(* ================================================================== *)

(** Shared by [ShopifyVoiceAssistant] and its prototype, which carry the
    same [mockResult]. *)

Module Shop.

Inductive Source :=
| private (docId label : jsstring)
| web (url label : jsstring).

Record Product := {
  id : N;
  title : jsstring;
  price : Q;
  rating : Q;
  ratingCount : N;
  brand : jsstring;
  material : jsstring;
  description : jsstring;
  source : list Source;
  ingredients : jsstring;
  reviewSample : jsstring
}.

Record PriceRange := {
  price_min : option Q;
  price_max : option Q
}.

Record Constraints := {
  c_price : PriceRange;
  c_material : option jsstring;
  c_category : option jsstring
}.

Record StepLogEntry := {
  node : jsstring;
  status : jsstring;
  message : jsstring;
  detail : jsstring;
  timestamp : Q
}.

(** [{ ...step, status: 'completed' }] *)
Definition completed (step : StepLogEntry) : StepLogEntry :=
  {| node := node step; status := lit "completed"; message := message step;
     detail := detail step; timestamp := timestamp step |}.

(** The object held by the [result] state; a field that is [undefined]
    is [None]. *)
Record Result := {
  query : option jsstring;
  answer : option jsstring;
  task : option jsstring;
  constraints : option Constraints;
  products : list Product;
  citations : option (list jsstring);
  stepLog : list StepLogEntry
}.

Definition em_dash : jsstring := [0x2014%N].
Definition star : jsstring := [0x2605%N].
Definition le_sign : jsstring := [0x2264%N].

Definition mockResult : Result :=
  {| query := Some (lit "Recommend an eco-friendly stainless-steel cleaner under fifteen dollars.");
     answer := Some (lit "I found 3 products matching your criteria. My top recommendation is Brand X Steel-Safe Eco Cleaner"
                     ++ em_dash ++ lit "it has a 4.6" ++ star
                     ++ lit " rating with over 2,800 reviews and is typically priced at $12.49. This product uses plant-based surfactants and is fully biodegradable. I've also identified 2 alternative options that may suit your needs.");
     task := Some (lit "recommendation");
     constraints := Some {| c_price := {| price_min := Some 0; price_max := Some 15 |};
                            c_material := Some (lit "Eco-Friendly");
                            c_category := Some (lit "Cleaner") |};
     products :=
       [ {| id := 1;
            title := lit "Brand X Steel-Safe Eco Cleaner";
            price := 12.49;
            rating := 4.6;
            ratingCount := 2843;
            brand := lit "Brand X";
            material := lit "Stainless Steel + Eco";
            description := lit "Plant-based surfactants, biodegradable formula";
            source := [ private (lit "B07XYZ123") (lit "Catalog");
                        web (lit "https://amazon.com") (lit "Amazon") ];
            ingredients := lit "Water, plant-based surfactants, essential oils";
            reviewSample := lit "Best eco-friendly cleaner I've used. Doesn't streak!" |};
         {| id := 2;
            title := lit "Brand Y Eco Clear Cleaner";
            price := 14.99;
            rating := 4.2;
            ratingCount := 1203;
            brand := lit "Brand Y";
            material := lit "Stainless Steel";
            description := lit "Natural ingredients, no harsh chemicals";
            source := [ web (lit "https://walmart.com") (lit "Walmart") ];
            ingredients := lit "Water, plant extracts, vinegar";
            reviewSample := lit "Great value, mild smell" |};
         {| id := 3;
            title := lit "Budget Shine Cleaner";
            price := 9.99;
            rating := 3.8;
            ratingCount := 456;
            brand := lit "Budget Shine";
            material := lit "Plastic Safe";
            description := lit "Affordable all-purpose cleaner";
            source := [ private (lit "B09ABC789") (lit "Catalog") ];
            ingredients := lit "Water, cleaning agents, alcohol";
            reviewSample := lit "Good for the price, slight chemical smell" |} ];
     citations := None;
     stepLog :=
       [ {| node := lit "router"; status := lit "completed";
            message := lit "Intent Classification";
            detail := lit "Identified: Recommendation task. Constraints: price "
                      ++ le_sign ++ lit " $15, material: eco-friendly";
            timestamp := 0 |};
         {| node := lit "planner"; status := lit "completed";
            message := lit "Retrieval Planning";
            detail := lit "Planned hybrid search: Private RAG + Live web search";
            timestamp := 0.8 |};
         {| node := lit "retriever"; status := lit "completed";
            message := lit "Product Retrieval";
            detail := lit "Retrieved 5 products. Filtered to 3 eco-friendly items under $15";
            timestamp := 1.6 |};
         {| node := lit "answerer"; status := lit "completed";
            message := lit "Answer Generation";
            detail := lit "Generated natural language response with citations";
            timestamp := 2.4 |} ] |}.

(** The price bound of a result, when its constraints carry one. *)
Definition max_price (r : Result) : option Q :=
  match constraints r with
  | Some c => price_max (c_price c)
  | None => None
  end.

Definition within (bound : Q) (p : Product) : Prop := price p <= bound.

Inductive RecordingState := idle | recording | processing.

Inductive RecorderState := inactive | rec_recording | rec_paused.

Inductive Microphone := granted | denied.

End Shop.

(* ================================================================== *)
(** ** ShopifyVoiceAssistant *)
(* ================================================================== *)

(** State that only feeds the display (waveform, expanded log, selected
    product, playback of the raw recording) is left out. *)

Module ShopifyVoiceAssistant.

Import Shop.

Record Blob := {
  blob_type : jsstring
}.

(** The recorder, with the [agentSteps] that the [processAudio] of its
    [onstop] handler closed over. *)
Record MediaRecorder := {
  mr_state : RecorderState;
  mimeType : jsstring;
  mr_agentSteps : list StepLogEntry
}.

Record Audio := {
  paused : bool;
  currentTime : Q
}.

(** The body of a reply of [/api/query]. *)
Record QueryData := {
  d_query : option jsstring;
  d_answer : option jsstring;
  d_task : option jsstring;
  d_constraints : option Constraints;
  d_products : option (list Product);
  d_citations : option (list jsstring)
}.

Record State := {
  recordingState : RecordingState;
  audioBlob : option Blob;
  liveTranscript : jsstring;
  finalTranscript : jsstring;
  recordingTime : N;
  isProcessing : bool;
  currentAgentStep : option jsstring;
  agentSteps : list StepLogEntry;
  result : option Result;
  answerTtsProgress : Q;
  showTranscript : bool;
  isPlayingTranscriptTTS : bool;
  transcriptTtsProgress : Q;
  isPlayingAnswerTTS : bool;
  answerTranscript : jsstring;
  recordingIntervalRef : bool;                 (* an interval is running *)
  mediaRecorderRef : option MediaRecorder;
  recognitionRef : option bool;                (* the recogniser, and whether it runs *)
  transcriptAudioRef : option Audio;
  answerAudioRef : option Audio
}.

Definition initial : State :=
  {| recordingState := idle; audioBlob := None; liveTranscript := [];
     finalTranscript := []; recordingTime := 0; isProcessing := false;
     currentAgentStep := None; agentSteps := []; result := None;
     answerTtsProgress := 0; showTranscript := false;
     isPlayingTranscriptTTS := false; transcriptTtsProgress := 0;
     isPlayingAnswerTTS := false; answerTranscript := [];
     recordingIntervalRef := false; mediaRecorderRef := None;
     recognitionRef := None; transcriptAudioRef := None; answerAudioRef := None |}.

Definition set_recordingState v (s : State) : State :=
  {| recordingState := v; audioBlob := audioBlob s;
     liveTranscript := liveTranscript s;
     finalTranscript := finalTranscript s; recordingTime := recordingTime s;
     isProcessing := isProcessing s; currentAgentStep := currentAgentStep s;
     agentSteps := agentSteps s; result := result s;
     answerTtsProgress := answerTtsProgress s;
     showTranscript := showTranscript s;
     isPlayingTranscriptTTS := isPlayingTranscriptTTS s;
     transcriptTtsProgress := transcriptTtsProgress s;
     isPlayingAnswerTTS := isPlayingAnswerTTS s;
     answerTranscript := answerTranscript s;
     recordingIntervalRef := recordingIntervalRef s;
     mediaRecorderRef := mediaRecorderRef s;
     recognitionRef := recognitionRef s;
     transcriptAudioRef := transcriptAudioRef s;
     answerAudioRef := answerAudioRef s |}.
Definition set_audioBlob v (s : State) : State :=
  {| recordingState := recordingState s; audioBlob := v;
     liveTranscript := liveTranscript s;
     finalTranscript := finalTranscript s; recordingTime := recordingTime s;
     isProcessing := isProcessing s; currentAgentStep := currentAgentStep s;
     agentSteps := agentSteps s; result := result s;
     answerTtsProgress := answerTtsProgress s;
     showTranscript := showTranscript s;
     isPlayingTranscriptTTS := isPlayingTranscriptTTS s;
     transcriptTtsProgress := transcriptTtsProgress s;
     isPlayingAnswerTTS := isPlayingAnswerTTS s;
     answerTranscript := answerTranscript s;
     recordingIntervalRef := recordingIntervalRef s;
     mediaRecorderRef := mediaRecorderRef s;
     recognitionRef := recognitionRef s;
     transcriptAudioRef := transcriptAudioRef s;
     answerAudioRef := answerAudioRef s |}.
Definition set_liveTranscript v (s : State) : State :=
  {| recordingState := recordingState s; audioBlob := audioBlob s;
     liveTranscript := v; finalTranscript := finalTranscript s;
     recordingTime := recordingTime s; isProcessing := isProcessing s;
     currentAgentStep := currentAgentStep s; agentSteps := agentSteps s;
     result := result s; answerTtsProgress := answerTtsProgress s;
     showTranscript := showTranscript s;
     isPlayingTranscriptTTS := isPlayingTranscriptTTS s;
     transcriptTtsProgress := transcriptTtsProgress s;
     isPlayingAnswerTTS := isPlayingAnswerTTS s;
     answerTranscript := answerTranscript s;
     recordingIntervalRef := recordingIntervalRef s;
     mediaRecorderRef := mediaRecorderRef s;
     recognitionRef := recognitionRef s;
     transcriptAudioRef := transcriptAudioRef s;
     answerAudioRef := answerAudioRef s |}.
Definition set_finalTranscript v (s : State) : State :=
  {| recordingState := recordingState s; audioBlob := audioBlob s;
     liveTranscript := liveTranscript s; finalTranscript := v;
     recordingTime := recordingTime s; isProcessing := isProcessing s;
     currentAgentStep := currentAgentStep s; agentSteps := agentSteps s;
     result := result s; answerTtsProgress := answerTtsProgress s;
     showTranscript := showTranscript s;
     isPlayingTranscriptTTS := isPlayingTranscriptTTS s;
     transcriptTtsProgress := transcriptTtsProgress s;
     isPlayingAnswerTTS := isPlayingAnswerTTS s;
     answerTranscript := answerTranscript s;
     recordingIntervalRef := recordingIntervalRef s;
     mediaRecorderRef := mediaRecorderRef s;
     recognitionRef := recognitionRef s;
     transcriptAudioRef := transcriptAudioRef s;
     answerAudioRef := answerAudioRef s |}.
Definition set_recordingTime v (s : State) : State :=
  {| recordingState := recordingState s; audioBlob := audioBlob s;
     liveTranscript := liveTranscript s;
     finalTranscript := finalTranscript s; recordingTime := v;
     isProcessing := isProcessing s; currentAgentStep := currentAgentStep s;
     agentSteps := agentSteps s; result := result s;
     answerTtsProgress := answerTtsProgress s;
     showTranscript := showTranscript s;
     isPlayingTranscriptTTS := isPlayingTranscriptTTS s;
     transcriptTtsProgress := transcriptTtsProgress s;
     isPlayingAnswerTTS := isPlayingAnswerTTS s;
     answerTranscript := answerTranscript s;
     recordingIntervalRef := recordingIntervalRef s;
     mediaRecorderRef := mediaRecorderRef s;
     recognitionRef := recognitionRef s;
     transcriptAudioRef := transcriptAudioRef s;
     answerAudioRef := answerAudioRef s |}.
Definition set_isProcessing v (s : State) : State :=
  {| recordingState := recordingState s; audioBlob := audioBlob s;
     liveTranscript := liveTranscript s;
     finalTranscript := finalTranscript s; recordingTime := recordingTime s;
     isProcessing := v; currentAgentStep := currentAgentStep s;
     agentSteps := agentSteps s; result := result s;
     answerTtsProgress := answerTtsProgress s;
     showTranscript := showTranscript s;
     isPlayingTranscriptTTS := isPlayingTranscriptTTS s;
     transcriptTtsProgress := transcriptTtsProgress s;
     isPlayingAnswerTTS := isPlayingAnswerTTS s;
     answerTranscript := answerTranscript s;
     recordingIntervalRef := recordingIntervalRef s;
     mediaRecorderRef := mediaRecorderRef s;
     recognitionRef := recognitionRef s;
     transcriptAudioRef := transcriptAudioRef s;
     answerAudioRef := answerAudioRef s |}.
Definition set_currentAgentStep v (s : State) : State :=
  {| recordingState := recordingState s; audioBlob := audioBlob s;
     liveTranscript := liveTranscript s;
     finalTranscript := finalTranscript s; recordingTime := recordingTime s;
     isProcessing := isProcessing s; currentAgentStep := v;
     agentSteps := agentSteps s; result := result s;
     answerTtsProgress := answerTtsProgress s;
     showTranscript := showTranscript s;
     isPlayingTranscriptTTS := isPlayingTranscriptTTS s;
     transcriptTtsProgress := transcriptTtsProgress s;
     isPlayingAnswerTTS := isPlayingAnswerTTS s;
     answerTranscript := answerTranscript s;
     recordingIntervalRef := recordingIntervalRef s;
     mediaRecorderRef := mediaRecorderRef s;
     recognitionRef := recognitionRef s;
     transcriptAudioRef := transcriptAudioRef s;
     answerAudioRef := answerAudioRef s |}.
Definition set_agentSteps v (s : State) : State :=
  {| recordingState := recordingState s; audioBlob := audioBlob s;
     liveTranscript := liveTranscript s;
     finalTranscript := finalTranscript s; recordingTime := recordingTime s;
     isProcessing := isProcessing s; currentAgentStep := currentAgentStep s;
     agentSteps := v; result := result s;
     answerTtsProgress := answerTtsProgress s;
     showTranscript := showTranscript s;
     isPlayingTranscriptTTS := isPlayingTranscriptTTS s;
     transcriptTtsProgress := transcriptTtsProgress s;
     isPlayingAnswerTTS := isPlayingAnswerTTS s;
     answerTranscript := answerTranscript s;
     recordingIntervalRef := recordingIntervalRef s;
     mediaRecorderRef := mediaRecorderRef s;
     recognitionRef := recognitionRef s;
     transcriptAudioRef := transcriptAudioRef s;
     answerAudioRef := answerAudioRef s |}.
Definition set_result v (s : State) : State :=
  {| recordingState := recordingState s; audioBlob := audioBlob s;
     liveTranscript := liveTranscript s;
     finalTranscript := finalTranscript s; recordingTime := recordingTime s;
     isProcessing := isProcessing s; currentAgentStep := currentAgentStep s;
     agentSteps := agentSteps s; result := v;
     answerTtsProgress := answerTtsProgress s;
     showTranscript := showTranscript s;
     isPlayingTranscriptTTS := isPlayingTranscriptTTS s;
     transcriptTtsProgress := transcriptTtsProgress s;
     isPlayingAnswerTTS := isPlayingAnswerTTS s;
     answerTranscript := answerTranscript s;
     recordingIntervalRef := recordingIntervalRef s;
     mediaRecorderRef := mediaRecorderRef s;
     recognitionRef := recognitionRef s;
     transcriptAudioRef := transcriptAudioRef s;
     answerAudioRef := answerAudioRef s |}.
Definition set_answerTtsProgress v (s : State) : State :=
  {| recordingState := recordingState s; audioBlob := audioBlob s;
     liveTranscript := liveTranscript s;
     finalTranscript := finalTranscript s; recordingTime := recordingTime s;
     isProcessing := isProcessing s; currentAgentStep := currentAgentStep s;
     agentSteps := agentSteps s; result := result s; answerTtsProgress := v;
     showTranscript := showTranscript s;
     isPlayingTranscriptTTS := isPlayingTranscriptTTS s;
     transcriptTtsProgress := transcriptTtsProgress s;
     isPlayingAnswerTTS := isPlayingAnswerTTS s;
     answerTranscript := answerTranscript s;
     recordingIntervalRef := recordingIntervalRef s;
     mediaRecorderRef := mediaRecorderRef s;
     recognitionRef := recognitionRef s;
     transcriptAudioRef := transcriptAudioRef s;
     answerAudioRef := answerAudioRef s |}.
Definition set_showTranscript v (s : State) : State :=
  {| recordingState := recordingState s; audioBlob := audioBlob s;
     liveTranscript := liveTranscript s;
     finalTranscript := finalTranscript s; recordingTime := recordingTime s;
     isProcessing := isProcessing s; currentAgentStep := currentAgentStep s;
     agentSteps := agentSteps s; result := result s;
     answerTtsProgress := answerTtsProgress s; showTranscript := v;
     isPlayingTranscriptTTS := isPlayingTranscriptTTS s;
     transcriptTtsProgress := transcriptTtsProgress s;
     isPlayingAnswerTTS := isPlayingAnswerTTS s;
     answerTranscript := answerTranscript s;
     recordingIntervalRef := recordingIntervalRef s;
     mediaRecorderRef := mediaRecorderRef s;
     recognitionRef := recognitionRef s;
     transcriptAudioRef := transcriptAudioRef s;
     answerAudioRef := answerAudioRef s |}.
Definition set_isPlayingTranscriptTTS v (s : State) : State :=
  {| recordingState := recordingState s; audioBlob := audioBlob s;
     liveTranscript := liveTranscript s;
     finalTranscript := finalTranscript s; recordingTime := recordingTime s;
     isProcessing := isProcessing s; currentAgentStep := currentAgentStep s;
     agentSteps := agentSteps s; result := result s;
     answerTtsProgress := answerTtsProgress s;
     showTranscript := showTranscript s; isPlayingTranscriptTTS := v;
     transcriptTtsProgress := transcriptTtsProgress s;
     isPlayingAnswerTTS := isPlayingAnswerTTS s;
     answerTranscript := answerTranscript s;
     recordingIntervalRef := recordingIntervalRef s;
     mediaRecorderRef := mediaRecorderRef s;
     recognitionRef := recognitionRef s;
     transcriptAudioRef := transcriptAudioRef s;
     answerAudioRef := answerAudioRef s |}.
Definition set_transcriptTtsProgress v (s : State) : State :=
  {| recordingState := recordingState s; audioBlob := audioBlob s;
     liveTranscript := liveTranscript s;
     finalTranscript := finalTranscript s; recordingTime := recordingTime s;
     isProcessing := isProcessing s; currentAgentStep := currentAgentStep s;
     agentSteps := agentSteps s; result := result s;
     answerTtsProgress := answerTtsProgress s;
     showTranscript := showTranscript s;
     isPlayingTranscriptTTS := isPlayingTranscriptTTS s;
     transcriptTtsProgress := v; isPlayingAnswerTTS := isPlayingAnswerTTS s;
     answerTranscript := answerTranscript s;
     recordingIntervalRef := recordingIntervalRef s;
     mediaRecorderRef := mediaRecorderRef s;
     recognitionRef := recognitionRef s;
     transcriptAudioRef := transcriptAudioRef s;
     answerAudioRef := answerAudioRef s |}.
Definition set_isPlayingAnswerTTS v (s : State) : State :=
  {| recordingState := recordingState s; audioBlob := audioBlob s;
     liveTranscript := liveTranscript s;
     finalTranscript := finalTranscript s; recordingTime := recordingTime s;
     isProcessing := isProcessing s; currentAgentStep := currentAgentStep s;
     agentSteps := agentSteps s; result := result s;
     answerTtsProgress := answerTtsProgress s;
     showTranscript := showTranscript s;
     isPlayingTranscriptTTS := isPlayingTranscriptTTS s;
     transcriptTtsProgress := transcriptTtsProgress s;
     isPlayingAnswerTTS := v; answerTranscript := answerTranscript s;
     recordingIntervalRef := recordingIntervalRef s;
     mediaRecorderRef := mediaRecorderRef s;
     recognitionRef := recognitionRef s;
     transcriptAudioRef := transcriptAudioRef s;
     answerAudioRef := answerAudioRef s |}.
Definition set_answerTranscript v (s : State) : State :=
  {| recordingState := recordingState s; audioBlob := audioBlob s;
     liveTranscript := liveTranscript s;
     finalTranscript := finalTranscript s; recordingTime := recordingTime s;
     isProcessing := isProcessing s; currentAgentStep := currentAgentStep s;
     agentSteps := agentSteps s; result := result s;
     answerTtsProgress := answerTtsProgress s;
     showTranscript := showTranscript s;
     isPlayingTranscriptTTS := isPlayingTranscriptTTS s;
     transcriptTtsProgress := transcriptTtsProgress s;
     isPlayingAnswerTTS := isPlayingAnswerTTS s; answerTranscript := v;
     recordingIntervalRef := recordingIntervalRef s;
     mediaRecorderRef := mediaRecorderRef s;
     recognitionRef := recognitionRef s;
     transcriptAudioRef := transcriptAudioRef s;
     answerAudioRef := answerAudioRef s |}.
Definition set_recordingIntervalRef v (s : State) : State :=
  {| recordingState := recordingState s; audioBlob := audioBlob s;
     liveTranscript := liveTranscript s;
     finalTranscript := finalTranscript s; recordingTime := recordingTime s;
     isProcessing := isProcessing s; currentAgentStep := currentAgentStep s;
     agentSteps := agentSteps s; result := result s;
     answerTtsProgress := answerTtsProgress s;
     showTranscript := showTranscript s;
     isPlayingTranscriptTTS := isPlayingTranscriptTTS s;
     transcriptTtsProgress := transcriptTtsProgress s;
     isPlayingAnswerTTS := isPlayingAnswerTTS s;
     answerTranscript := answerTranscript s; recordingIntervalRef := v;
     mediaRecorderRef := mediaRecorderRef s;
     recognitionRef := recognitionRef s;
     transcriptAudioRef := transcriptAudioRef s;
     answerAudioRef := answerAudioRef s |}.
Definition set_mediaRecorderRef v (s : State) : State :=
  {| recordingState := recordingState s; audioBlob := audioBlob s;
     liveTranscript := liveTranscript s;
     finalTranscript := finalTranscript s; recordingTime := recordingTime s;
     isProcessing := isProcessing s; currentAgentStep := currentAgentStep s;
     agentSteps := agentSteps s; result := result s;
     answerTtsProgress := answerTtsProgress s;
     showTranscript := showTranscript s;
     isPlayingTranscriptTTS := isPlayingTranscriptTTS s;
     transcriptTtsProgress := transcriptTtsProgress s;
     isPlayingAnswerTTS := isPlayingAnswerTTS s;
     answerTranscript := answerTranscript s;
     recordingIntervalRef := recordingIntervalRef s; mediaRecorderRef := v;
     recognitionRef := recognitionRef s;
     transcriptAudioRef := transcriptAudioRef s;
     answerAudioRef := answerAudioRef s |}.
Definition set_recognitionRef v (s : State) : State :=
  {| recordingState := recordingState s; audioBlob := audioBlob s;
     liveTranscript := liveTranscript s;
     finalTranscript := finalTranscript s; recordingTime := recordingTime s;
     isProcessing := isProcessing s; currentAgentStep := currentAgentStep s;
     agentSteps := agentSteps s; result := result s;
     answerTtsProgress := answerTtsProgress s;
     showTranscript := showTranscript s;
     isPlayingTranscriptTTS := isPlayingTranscriptTTS s;
     transcriptTtsProgress := transcriptTtsProgress s;
     isPlayingAnswerTTS := isPlayingAnswerTTS s;
     answerTranscript := answerTranscript s;
     recordingIntervalRef := recordingIntervalRef s;
     mediaRecorderRef := mediaRecorderRef s; recognitionRef := v;
     transcriptAudioRef := transcriptAudioRef s;
     answerAudioRef := answerAudioRef s |}.
Definition set_transcriptAudioRef v (s : State) : State :=
  {| recordingState := recordingState s; audioBlob := audioBlob s;
     liveTranscript := liveTranscript s;
     finalTranscript := finalTranscript s; recordingTime := recordingTime s;
     isProcessing := isProcessing s; currentAgentStep := currentAgentStep s;
     agentSteps := agentSteps s; result := result s;
     answerTtsProgress := answerTtsProgress s;
     showTranscript := showTranscript s;
     isPlayingTranscriptTTS := isPlayingTranscriptTTS s;
     transcriptTtsProgress := transcriptTtsProgress s;
     isPlayingAnswerTTS := isPlayingAnswerTTS s;
     answerTranscript := answerTranscript s;
     recordingIntervalRef := recordingIntervalRef s;
     mediaRecorderRef := mediaRecorderRef s;
     recognitionRef := recognitionRef s; transcriptAudioRef := v;
     answerAudioRef := answerAudioRef s |}.
Definition set_answerAudioRef v (s : State) : State :=
  {| recordingState := recordingState s; audioBlob := audioBlob s;
     liveTranscript := liveTranscript s;
     finalTranscript := finalTranscript s; recordingTime := recordingTime s;
     isProcessing := isProcessing s; currentAgentStep := currentAgentStep s;
     agentSteps := agentSteps s; result := result s;
     answerTtsProgress := answerTtsProgress s;
     showTranscript := showTranscript s;
     isPlayingTranscriptTTS := isPlayingTranscriptTTS s;
     transcriptTtsProgress := transcriptTtsProgress s;
     isPlayingAnswerTTS := isPlayingAnswerTTS s;
     answerTranscript := answerTranscript s;
     recordingIntervalRef := recordingIntervalRef s;
     mediaRecorderRef := mediaRecorderRef s;
     recognitionRef := recognitionRef s;
     transcriptAudioRef := transcriptAudioRef s; answerAudioRef := v |}.

(** *** Effects and timers *)

Inductive Timer :=
| timer_processStep (closure_agentSteps : list StepLogEntry) (index : nat)
| timer_transcript_progress_reset
| timer_answer_progress_reset.

Inductive Effect :=
| alert (message : jsstring)
| media_recorder_start
| media_recorder_stop
| stream_stop_tracks
| recognition_start
| recognition_stop
| audio_pause
| fetch_asr (file : Blob)                    (* POST /api/asr *)
| fetch_query (query : option jsstring)      (* POST /api/query *)
| fetch_tts (text : jsstring)                (* POST /api/tts, voice alloy *)
| fetch_audio (url : jsstring)               (* GET the synthesized audio *)
| setTimeout (t : Timer) (ms : N).

Definition Handler := handler State Effect.

(** *** Recording *)

(** What the browser offers to [startRecording]. *)
Record Browser := {
  microphone : Microphone;
  opusSupported : bool;          (* MediaRecorder.isTypeSupported('audio/webm;codecs=opus') *)
  speechRecognition : bool       (* window.SpeechRecognition || window.webkitSpeechRecognition *)
}.

(** [startRecording]; a refused microphone makes [getUserMedia] reject,
    which the outer [catch] reports. *)
Definition startRecording (b : Browser) : Handler :=
  match microphone b with
  | denied =>
      emit (alert (lit "Microphone access denied. Please allow microphone access in your browser settings."))
  | granted =>
      let mime := if opusSupported b then lit "audio/webm;codecs=opus" else lit "audio/wav" in
      update (fun s => set_mediaRecorderRef
                (Some {| mr_state := inactive; mimeType := mime;
                         mr_agentSteps := agentSteps s |}) s) ;;
      update (set_recordingState recording) ;;
      update (set_recordingTime 0%N) ;;
      update (set_liveTranscript []) ;;
      emit media_recorder_start ;;
      update (fun s => set_mediaRecorderRef
                (option_map (fun mr => {| mr_state := rec_recording;
                                          mimeType := mimeType mr;
                                          mr_agentSteps := mr_agentSteps mr |})
                            (mediaRecorderRef s)) s) ;;
      update (set_recordingIntervalRef true) ;;
      when (speechRecognition b)
        (update (set_recognitionRef (Some true)) ;; emit recognition_start)
  end.

(** The recording interval: [setRecordingTime((t) => t + 100)]. *)
Definition recordingInterval_tick : Handler :=
  update (fun s => set_recordingTime (recordingTime s + 100)%N s).

(** *** Speech recognition results *)

Record RecognitionResult := {
  rr_transcript : jsstring;      (* results[i][0].transcript *)
  isFinal : bool
}.

Record RecognitionEvent := {
  resultIndex : nat;
  results : list RecognitionResult
}.

(** The loop of [recognition.onresult] over [results[resultIndex..]],
    carrying the pair [(interim, final)]. *)
Fixpoint onresult_loop (rs : list RecognitionResult) (acc : jsstring * jsstring)
    : jsstring * jsstring :=
  match rs with
  | [] => acc
  | r :: rest =>
      let tr := trim (rr_transcript r) in
      let (interim, final) := acc in
      onresult_loop rest
        (if isFinal r then (interim, final ++ tr ++ lit " ")
         else (interim ++ tr ++ lit " ", final))
  end.

(** [recognition.onresult] *)
Definition recognition_onresult (event : RecognitionEvent) : Handler :=
  let (interim, final) := onresult_loop (skipn (resultIndex event) (results event)) ([], []) in
  when (truthy interim) (update (set_liveTranscript interim)) ;;
  when (truthy final)
    (update (fun s => set_finalTranscript
               (if truthy (finalTranscript s)
                then finalTranscript s ++ lit " " ++ final
                else final) s)).

(** [stopRecording] *)
Definition stopRecording : Handler :=
  fun s =>
    (match mediaRecorderRef s with
     | Some mr =>
         match mr_state mr with
         | inactive => skip
         | _ => emit media_recorder_stop ;;
                update (set_mediaRecorderRef
                          (Some {| mr_state := inactive; mimeType := mimeType mr;
                                   mr_agentSteps := mr_agentSteps mr |})) ;;
                emit stream_stop_tracks
         end
     | None => skip
     end ;;
     update (set_recordingIntervalRef false) ;;
     update (set_recordingState idle) ;;
     match recognitionRef s with
     | Some _ => emit recognition_stop ;; update (set_recognitionRef (Some false))
     | None => skip
     end ;;
     update (fun prev => set_finalTranscript
               (or_else (finalTranscript prev) (liveTranscript s)) prev) ;;
     update (set_liveTranscript []) ;;
     update (set_showTranscript false) ;;
     match audioBlob s with
     | Some blob =>
         when (negb (truthy (finalTranscript s)))
              (emit (fetch_asr {| blob_type := or_else (blob_type blob) (lit "audio/wav") |}))
     | None => skip
     end) s.

(** The reply of [/api/asr] to a request of [stopRecording] or of the file
    picker: a non-empty [text] becomes the final transcript, a failure is
    swallowed. *)
Definition asr_settled (r : Response (option jsstring)) : Handler :=
  match r with
  | Ok (Some text) => when (truthy text) (update (set_finalTranscript text))
  | _ => skip
  end.

(** *** The pipeline run *)

(** [fetchQueryResults] up to its [await fetch]. *)
Definition fetchQueryResults (query : option jsstring) : Handler :=
  emit (fetch_query query).

(** [fetchQueryResults] once the request has settled; [closure_agentSteps]
    is the [agentSteps] of the render the function belongs to. *)
Definition fetchQueryResults_settled (closure_agentSteps : list StepLogEntry)
    (r : Response QueryData) : Handler :=
  let fallback (message : jsstring) : Handler :=
    update (set_result (Some mockResult)) ;;
    update (set_answerTranscript (opt_or_else (answer mockResult) [])) ;;
    emit (alert (lit "API Error: " ++ message ++ lit ". Showing mock data instead.")) in
  match r with
  | Ok data =>
      update (set_result (Some {| query := d_query data;
                                  answer := d_answer data;
                                  task := d_task data;
                                  constraints := d_constraints data;
                                  products := array_or_empty (d_products data);
                                  citations := Some (array_or_empty (d_citations data));
                                  stepLog := closure_agentSteps |})) ;;
      update (set_answerTranscript (opt_or_else (d_answer data) []))
  | NotOk _ detail => fallback (opt_or_else detail (lit "Query failed"))
  | Rejected message => fallback message
  end.

(** [processStep], the timer-driven loop inside [processAudio]; [index]
    is the loop variable of the closure. *)
Definition processStep (closure_agentSteps : list StepLogEntry) (index : nat) : Handler :=
  let steps := stepLog mockResult in
  match nth_error steps index with
  | Some step =>
      update (set_currentAgentStep (Some (node step))) ;;
      update (fun prev => set_agentSteps (agentSteps prev ++ [completed step]) prev) ;;
      emit (setTimeout (timer_processStep closure_agentSteps (S index)) 800)
  | None =>
      update (set_currentAgentStep None) ;;
      update (set_isProcessing false) ;;
      update (set_recordingState idle) ;;
      fetchQueryResults (query mockResult)
  end.

(** [processAudio] *)
Definition processAudio (closure_agentSteps : list StepLogEntry) : Handler :=
  update (set_recordingState processing) ;;
  update (set_isProcessing true) ;;
  update (set_agentSteps []) ;;
  processStep closure_agentSteps 0.

(** [mediaRecorder.onstop] of the recorder [mr]. *)
Definition mediaRecorder_onstop (mr : MediaRecorder) : Handler :=
  update (set_audioBlob (Some {| blob_type := mimeType mr |})) ;;
  processAudio (mr_agentSteps mr).

(** [input.onchange] of the file picker, up to its [await]. *)
Definition audioFile_onchange (file : option Blob) : Handler :=
  match file with
  | Some f =>
      fun s => (update (set_audioBlob (Some f)) ;;
                processAudio (agentSteps s) ;;
                emit (fetch_asr f)) s
  | None => skip
  end.

(** *** Speech synthesis playback *)

(** [audio.pause(); audio.currentTime = 0] on the element a reference
    holds. *)
Definition rewind (a : option Audio) : option Audio :=
  option_map (fun _ => {| paused := true; currentTime := 0 |}) a.

(** [playTranscriptTTS] up to its [await fetch]. *)
Definition playTranscriptTTS : Handler :=
  fun s =>
    if isPlayingTranscriptTTS s then
      (match transcriptAudioRef s with
       | Some _ => emit audio_pause ;;
                   update (fun s => set_transcriptAudioRef (rewind (transcriptAudioRef s)) s)
       | None => skip
       end ;;
       update (set_isPlayingTranscriptTTS false) ;;
       update (set_transcriptTtsProgress 0)) s
    else
      (let text := or_else (finalTranscript s)
                     (or_else (liveTranscript s) (lit "Transcript not available")) in
       update (set_isPlayingTranscriptTTS true) ;;
       update (set_transcriptTtsProgress 0) ;;
       emit (fetch_tts text)) s.

(** The [catch] of [playTranscriptTTS]. *)
Definition playTranscriptTTS_catch (message : jsstring) : Handler :=
  update (set_isPlayingTranscriptTTS false) ;;
  update (set_transcriptTtsProgress 0) ;;
  emit (alert (lit "Failed to generate speech: " ++ message)).

(** [audio.play()] on the element a reference holds. *)
Definition playing (a : option Audio) : option Audio :=
  option_map (fun a => {| paused := false; currentTime := currentTime a |}) a.

(** [playTranscriptTTS] once [/api/tts] has settled with the [audio_url];
    [play] is the rejection of [audio.play()], if it rejects. *)
Definition playTranscriptTTS_settled (r : Response jsstring) (play : option jsstring) : Handler :=
  match r with
  | Ok _ =>
      update (set_transcriptAudioRef (Some {| paused := true; currentTime := 0 |})) ;;
      match play with
      | None => update (fun s => set_transcriptAudioRef (playing (transcriptAudioRef s)) s)
      | Some message => playTranscriptTTS_catch message
      end
  | NotOk _ detail => playTranscriptTTS_catch (opt_or_else detail (lit "TTS generation failed"))
  | Rejected message => playTranscriptTTS_catch message
  end.

(** [playAnswerTTS] up to its first [await fetch]. *)
Definition playAnswerTTS : Handler :=
  fun s =>
    if isPlayingAnswerTTS s then
      (match answerAudioRef s with
       | Some _ => emit audio_pause ;;
                   update (fun s => set_answerAudioRef (rewind (answerAudioRef s)) s)
       | None => skip
       end ;;
       update (set_isPlayingAnswerTTS false) ;;
       update (set_answerTtsProgress 0)) s
    else
      (let text := opt_or_else (match result s with Some r => answer r | None => None end)
                     (lit "Answer not available") in
       update (set_isPlayingAnswerTTS true) ;;
       update (set_answerTtsProgress 0) ;;
       emit (fetch_tts text)) s.

(** The [catch] of [playAnswerTTS]. *)
Definition playAnswerTTS_catch (message : jsstring) : Handler :=
  update (set_isPlayingAnswerTTS false) ;;
  update (set_answerTtsProgress 0) ;;
  emit (alert (lit "Failed to generate speech: " ++ message)).

(** [playAnswerTTS] once [/api/tts] has settled with the [audio_url]: the
    element is created and the synthesized audio is fetched again. *)
Definition playAnswerTTS_settled (r : Response jsstring) : Handler :=
  match r with
  | Ok audio_url =>
      update (set_answerAudioRef (Some {| paused := true; currentTime := 0 |})) ;;
      emit (fetch_audio audio_url)
  | NotOk _ detail => playAnswerTTS_catch (opt_or_else detail (lit "TTS generation failed"))
  | Rejected message => playAnswerTTS_catch message
  end.

(** [playAnswerTTS] once the audio has been fetched: on an OK reply it
    was sent to [/api/asr], and [Ok text] carries the text that came back
    (none when that request failed); then [audio.play()]. *)
Definition playAnswerTTS_fetched (r : Response (option jsstring)) (play : option jsstring) : Handler :=
  let start : Handler :=
    match play with
    | None => update (fun s => set_answerAudioRef (playing (answerAudioRef s)) s)
    | Some message => playAnswerTTS_catch message
    end in
  match r with
  | Ok (Some text) => when (truthy text) (update (set_answerTranscript text)) ;; start
  | Ok None => start
  | NotOk _ _ => start
  | Rejected message => playAnswerTTS_catch message
  end.

(** The two playback targets, and what each holds. *)
Inductive Target := transcript_playback | answer_playback.

Definition isPlaying (t : Target) (s : State) : bool :=
  match t with
  | transcript_playback => isPlayingTranscriptTTS s
  | answer_playback => isPlayingAnswerTTS s
  end.

Definition progress (t : Target) (s : State) : Q :=
  match t with
  | transcript_playback => transcriptTtsProgress s
  | answer_playback => answerTtsProgress s
  end.

Definition audioRef (t : Target) (s : State) : option Audio :=
  match t with
  | transcript_playback => transcriptAudioRef s
  | answer_playback => answerAudioRef s
  end.

Definition set_isPlaying (t : Target) : bool -> State -> State :=
  match t with
  | transcript_playback => set_isPlayingTranscriptTTS
  | answer_playback => set_isPlayingAnswerTTS
  end.

Definition set_progress (t : Target) : Q -> State -> State :=
  match t with
  | transcript_playback => set_transcriptTtsProgress
  | answer_playback => set_answerTtsProgress
  end.

Definition set_audioRef (t : Target) : option Audio -> State -> State :=
  match t with
  | transcript_playback => set_transcriptAudioRef
  | answer_playback => set_answerAudioRef
  end.

(** The play button of a target. *)
Definition toggle (t : Target) : Handler :=
  match t with
  | transcript_playback => playTranscriptTTS
  | answer_playback => playAnswerTTS
  end.

(** The handlers both functions install on their audio element; the
    browser has moved the element to [time] when [ontimeupdate] runs, and
    [duration] is absent until it is known. *)
Definition audio_ontimeupdate (t : Target) (time : Q) (duration : option Q) : Handler :=
  update (fun s => set_audioRef t
            (option_map (fun a => {| paused := paused a; currentTime := time |}) (audioRef t s)) s) ;;
  match duration with
  | Some d => when (negb (Qeq_bool d 0)) (update (set_progress t (time / d * 100)))
  | None => skip
  end.

Definition progress_reset (t : Target) : Timer :=
  match t with
  | transcript_playback => timer_transcript_progress_reset
  | answer_playback => timer_answer_progress_reset
  end.

Definition audio_onended (t : Target) : Handler :=
  update (fun s => set_audioRef t
            (option_map (fun a => {| paused := true; currentTime := currentTime a |}) (audioRef t s)) s) ;;
  update (set_isPlaying t false) ;;
  update (set_progress t 100) ;;
  emit (setTimeout (progress_reset t) 500).

Definition audio_onerror (t : Target) : Handler :=
  update (set_isPlaying t false) ;;
  update (set_progress t 0) ;;
  emit (alert (lit "Failed to play audio. Please try again.")).

(** *** Runs *)

Definition fire (t : Timer) : Handler :=
  match t with
  | timer_processStep closure index => processStep closure index
  | timer_transcript_progress_reset => update (set_transcriptTtsProgress 0)
  | timer_answer_progress_reset => update (set_answerTtsProgress 0)
  end.

Inductive Event :=
| ev_start (b : Browser)
| ev_recording_tick
| ev_result (e : RecognitionEvent)
| ev_stop
| ev_recorder_onstop (mr : MediaRecorder)
| ev_asr_settled (r : Response (option jsstring))
| ev_file (file : option Blob)
| ev_timer (t : Timer)
| ev_query_settled (closure_agentSteps : list StepLogEntry) (r : Response QueryData)
| ev_toggle (t : Target)
| ev_transcript_tts_settled (r : Response jsstring) (play : option jsstring)
| ev_answer_tts_settled (r : Response jsstring)
| ev_answer_tts_fetched (r : Response (option jsstring)) (play : option jsstring)
| ev_audio_time (t : Target) (time : Q) (duration : option Q)
| ev_audio_ended (t : Target)
| ev_audio_error (t : Target).

Definition handle (e : Event) : Handler :=
  match e with
  | ev_start b => startRecording b
  | ev_recording_tick => recordingInterval_tick
  | ev_result e => recognition_onresult e
  | ev_stop => stopRecording
  | ev_recorder_onstop mr => mediaRecorder_onstop mr
  | ev_asr_settled r => asr_settled r
  | ev_file f => audioFile_onchange f
  | ev_timer t => fire t
  | ev_query_settled c r => fetchQueryResults_settled c r
  | ev_toggle t => toggle t
  | ev_transcript_tts_settled r p => playTranscriptTTS_settled r p
  | ev_answer_tts_settled r => playAnswerTTS_settled r
  | ev_answer_tts_fetched r p => playAnswerTTS_fetched r p
  | ev_audio_time t time d => audio_ontimeupdate t time d
  | ev_audio_ended t => audio_onended t
  | ev_audio_error t => audio_onerror t
  end.

Fixpoint run (events : list Event) : Handler :=
  match events with
  | [] => skip
  | e :: rest => handle e ;; run rest
  end.

(** The timers a handler asked for, in order. *)
Definition scheduled (effects : list Effect) : list Timer :=
  flat_map (fun e => match e with setTimeout t _ => [t] | _ => [] end) effects.

(** Fires the pending timers in order, each followed by the timers it
    asks for in turn, at most [fuel] of them; returns what is still
    pending. *)
Fixpoint drain (fuel : nat) (pending : list Timer) (s : State)
    : State * list Effect * list Timer :=
  match fuel, pending with
  | O, _ => (s, [], pending)
  | _, [] => (s, [], [])
  | S fuel', t :: rest =>
      let (s1, e1) := fire t s in
      let '(s2, e2, pending') := drain fuel' (rest ++ scheduled e1) s1 in
      (s2, e1 ++ e2, pending')
  end.

(** [processAudio] and the timers that carry its loop on, with nothing
    else in between. *)
Definition pipeline_run (fuel : nat) (closure_agentSteps : list StepLogEntry) (s : State)
    : State * list Effect * list Timer :=
  let (s1, e1) := processAudio closure_agentSteps s in
  let '(s2, e2, pending) := drain fuel (scheduled e1) s1 in
  (s2, e1 ++ e2, pending).

(** Whether a handler stopped the recogniser. *)
Definition recogniser_stopped (effects : list Effect) : bool :=
  existsb (fun e => match e with recognition_stop => true | _ => false end) effects.

(** The final transcript assembled from nothing but the segments the
    recogniser delivered as final. *)
Definition final_text (e : RecognitionEvent) : jsstring :=
  List.concat (map (fun r => trim (rr_transcript r) ++ lit " ")
              (filter isFinal (skipn (resultIndex e) (results e)))).

Definition interim_text (e : RecognitionEvent) : jsstring :=
  List.concat (map (fun r => trim (rr_transcript r) ++ lit " ")
              (filter (fun r => negb (isFinal r)) (skipn (resultIndex e) (results e)))).

(** [prev ? `${prev} ${final}` : final], when there is something to add. *)
Definition append_final (prev final : jsstring) : jsstring :=
  if truthy final then
    if truthy prev then prev ++ lit " " ++ final else final
  else prev.

(** The events of a session that goes on: all but [stopRecording] and the
    reply to a batch transcription. *)
Definition streaming (e : Event) : bool :=
  match e with
  | ev_stop | ev_asr_settled _ => false
  | _ => true
  end.

Fixpoint delivered_final (events : list Event) (prev : jsstring) : jsstring :=
  match events with
  | [] => prev
  | ev_result e :: rest => delivered_final rest (append_final prev (final_text e))
  | _ :: rest => delivered_final rest prev
  end.

End ShopifyVoiceAssistant.

(* ================================================================== *)
(** ** The prototype of ShopifyVoiceAssistant *)
(* ================================================================== *)

(** The prototype has no server behind it: the pipeline is the mock step
    log played on timers, and speech playback is a timed progress bar. *)

Module Prototype.

Import Shop.

Record Blob := {
  blob_name : jsstring;
  blob_type : jsstring
}.

Record MediaRecorder := {
  mr_state : RecorderState;
  mimeType : jsstring
}.

Record State := {
  recordingState : RecordingState;
  audioBlob : option Blob;
  liveTranscript : jsstring;
  finalTranscript : jsstring;
  recordingTime : N;
  isProcessing : bool;
  currentAgentStep : option jsstring;
  agentSteps : list StepLogEntry;
  result : option Result;
  isPlayingTTS : bool;
  ttsProgress : Q;
  recordingIntervalRef : bool;                 (* an interval is running *)
  mediaRecorderRef : option MediaRecorder
}.

Definition initial : State :=
  {| recordingState := idle; audioBlob := None; liveTranscript := [];
     finalTranscript := []; recordingTime := 0; isProcessing := false;
     currentAgentStep := None; agentSteps := []; result := None;
     isPlayingTTS := false; ttsProgress := 0;
     recordingIntervalRef := false; mediaRecorderRef := None |}.

Definition set_recordingState v (s : State) : State :=
  {| recordingState := v; audioBlob := audioBlob s;
     liveTranscript := liveTranscript s;
     finalTranscript := finalTranscript s; recordingTime := recordingTime s;
     isProcessing := isProcessing s; currentAgentStep := currentAgentStep s;
     agentSteps := agentSteps s; result := result s;
     isPlayingTTS := isPlayingTTS s; ttsProgress := ttsProgress s;
     recordingIntervalRef := recordingIntervalRef s;
     mediaRecorderRef := mediaRecorderRef s |}.
Definition set_audioBlob v (s : State) : State :=
  {| recordingState := recordingState s; audioBlob := v;
     liveTranscript := liveTranscript s;
     finalTranscript := finalTranscript s; recordingTime := recordingTime s;
     isProcessing := isProcessing s; currentAgentStep := currentAgentStep s;
     agentSteps := agentSteps s; result := result s;
     isPlayingTTS := isPlayingTTS s; ttsProgress := ttsProgress s;
     recordingIntervalRef := recordingIntervalRef s;
     mediaRecorderRef := mediaRecorderRef s |}.
Definition set_liveTranscript v (s : State) : State :=
  {| recordingState := recordingState s; audioBlob := audioBlob s;
     liveTranscript := v; finalTranscript := finalTranscript s;
     recordingTime := recordingTime s; isProcessing := isProcessing s;
     currentAgentStep := currentAgentStep s; agentSteps := agentSteps s;
     result := result s; isPlayingTTS := isPlayingTTS s;
     ttsProgress := ttsProgress s;
     recordingIntervalRef := recordingIntervalRef s;
     mediaRecorderRef := mediaRecorderRef s |}.
Definition set_finalTranscript v (s : State) : State :=
  {| recordingState := recordingState s; audioBlob := audioBlob s;
     liveTranscript := liveTranscript s; finalTranscript := v;
     recordingTime := recordingTime s; isProcessing := isProcessing s;
     currentAgentStep := currentAgentStep s; agentSteps := agentSteps s;
     result := result s; isPlayingTTS := isPlayingTTS s;
     ttsProgress := ttsProgress s;
     recordingIntervalRef := recordingIntervalRef s;
     mediaRecorderRef := mediaRecorderRef s |}.
Definition set_recordingTime v (s : State) : State :=
  {| recordingState := recordingState s; audioBlob := audioBlob s;
     liveTranscript := liveTranscript s;
     finalTranscript := finalTranscript s; recordingTime := v;
     isProcessing := isProcessing s; currentAgentStep := currentAgentStep s;
     agentSteps := agentSteps s; result := result s;
     isPlayingTTS := isPlayingTTS s; ttsProgress := ttsProgress s;
     recordingIntervalRef := recordingIntervalRef s;
     mediaRecorderRef := mediaRecorderRef s |}.
Definition set_isProcessing v (s : State) : State :=
  {| recordingState := recordingState s; audioBlob := audioBlob s;
     liveTranscript := liveTranscript s;
     finalTranscript := finalTranscript s; recordingTime := recordingTime s;
     isProcessing := v; currentAgentStep := currentAgentStep s;
     agentSteps := agentSteps s; result := result s;
     isPlayingTTS := isPlayingTTS s; ttsProgress := ttsProgress s;
     recordingIntervalRef := recordingIntervalRef s;
     mediaRecorderRef := mediaRecorderRef s |}.
Definition set_currentAgentStep v (s : State) : State :=
  {| recordingState := recordingState s; audioBlob := audioBlob s;
     liveTranscript := liveTranscript s;
     finalTranscript := finalTranscript s; recordingTime := recordingTime s;
     isProcessing := isProcessing s; currentAgentStep := v;
     agentSteps := agentSteps s; result := result s;
     isPlayingTTS := isPlayingTTS s; ttsProgress := ttsProgress s;
     recordingIntervalRef := recordingIntervalRef s;
     mediaRecorderRef := mediaRecorderRef s |}.
Definition set_agentSteps v (s : State) : State :=
  {| recordingState := recordingState s; audioBlob := audioBlob s;
     liveTranscript := liveTranscript s;
     finalTranscript := finalTranscript s; recordingTime := recordingTime s;
     isProcessing := isProcessing s; currentAgentStep := currentAgentStep s;
     agentSteps := v; result := result s; isPlayingTTS := isPlayingTTS s;
     ttsProgress := ttsProgress s;
     recordingIntervalRef := recordingIntervalRef s;
     mediaRecorderRef := mediaRecorderRef s |}.
Definition set_result v (s : State) : State :=
  {| recordingState := recordingState s; audioBlob := audioBlob s;
     liveTranscript := liveTranscript s;
     finalTranscript := finalTranscript s; recordingTime := recordingTime s;
     isProcessing := isProcessing s; currentAgentStep := currentAgentStep s;
     agentSteps := agentSteps s; result := v; isPlayingTTS := isPlayingTTS s;
     ttsProgress := ttsProgress s;
     recordingIntervalRef := recordingIntervalRef s;
     mediaRecorderRef := mediaRecorderRef s |}.
Definition set_isPlayingTTS v (s : State) : State :=
  {| recordingState := recordingState s; audioBlob := audioBlob s;
     liveTranscript := liveTranscript s;
     finalTranscript := finalTranscript s; recordingTime := recordingTime s;
     isProcessing := isProcessing s; currentAgentStep := currentAgentStep s;
     agentSteps := agentSteps s; result := result s; isPlayingTTS := v;
     ttsProgress := ttsProgress s;
     recordingIntervalRef := recordingIntervalRef s;
     mediaRecorderRef := mediaRecorderRef s |}.
Definition set_ttsProgress v (s : State) : State :=
  {| recordingState := recordingState s; audioBlob := audioBlob s;
     liveTranscript := liveTranscript s;
     finalTranscript := finalTranscript s; recordingTime := recordingTime s;
     isProcessing := isProcessing s; currentAgentStep := currentAgentStep s;
     agentSteps := agentSteps s; result := result s;
     isPlayingTTS := isPlayingTTS s; ttsProgress := v;
     recordingIntervalRef := recordingIntervalRef s;
     mediaRecorderRef := mediaRecorderRef s |}.
Definition set_recordingIntervalRef v (s : State) : State :=
  {| recordingState := recordingState s; audioBlob := audioBlob s;
     liveTranscript := liveTranscript s;
     finalTranscript := finalTranscript s; recordingTime := recordingTime s;
     isProcessing := isProcessing s; currentAgentStep := currentAgentStep s;
     agentSteps := agentSteps s; result := result s;
     isPlayingTTS := isPlayingTTS s; ttsProgress := ttsProgress s;
     recordingIntervalRef := v; mediaRecorderRef := mediaRecorderRef s |}.
Definition set_mediaRecorderRef v (s : State) : State :=
  {| recordingState := recordingState s; audioBlob := audioBlob s;
     liveTranscript := liveTranscript s;
     finalTranscript := finalTranscript s; recordingTime := recordingTime s;
     isProcessing := isProcessing s; currentAgentStep := currentAgentStep s;
     agentSteps := agentSteps s; result := result s;
     isPlayingTTS := isPlayingTTS s; ttsProgress := ttsProgress s;
     recordingIntervalRef := recordingIntervalRef s; mediaRecorderRef := v |}.

Inductive Timer :=
| timer_processStep (index : nat)
| timer_tts_done.

Inductive Effect :=
| alert (message : jsstring)
| media_recorder_start
| media_recorder_stop
| stream_stop_tracks
| setTimeout (t : Timer) (ms : N).

Definition Handler := handler State Effect.

(** [startRecording]; [opusSupported] is the answer of
    [MediaRecorder.isTypeSupported('audio/webm;codecs=opus')]. *)
Definition startRecording (mic : Microphone) (opusSupported : bool) : Handler :=
  match mic with
  | denied =>
      emit (alert (lit "Microphone access denied. Please allow microphone access in your browser settings."))
  | granted =>
      let mime := if opusSupported then lit "audio/webm;codecs=opus" else lit "audio/wav" in
      update (set_mediaRecorderRef (Some {| mr_state := inactive; mimeType := mime |})) ;;
      update (set_recordingState recording) ;;
      update (set_recordingTime 0%N) ;;
      update (set_liveTranscript []) ;;
      emit media_recorder_start ;;
      update (set_mediaRecorderRef (Some {| mr_state := rec_recording; mimeType := mime |})) ;;
      update (set_recordingIntervalRef true)
  end.

(** [stopRecording] *)
Definition stopRecording : Handler :=
  fun s =>
    (match mediaRecorderRef s with
     | Some mr =>
         match mr_state mr with
         | inactive => skip
         | _ => emit media_recorder_stop ;;
                update (set_mediaRecorderRef
                          (Some {| mr_state := inactive; mimeType := mimeType mr |})) ;;
                emit stream_stop_tracks
         end
     | None => skip
     end ;;
     update (set_recordingIntervalRef false) ;;
     update (set_recordingState idle)) s.

(** [mediaRecorder.onstop] of the recorder [mr]. *)
Definition mediaRecorder_onstop (mr : MediaRecorder) : Handler :=
  update (set_audioBlob (Some {| blob_name := []; blob_type := mimeType mr |})).

(** [processStep], the timer-driven loop inside [processAudio]; [index]
    is the loop variable of the closure. *)
Definition processStep (index : nat) : Handler :=
  let steps := stepLog mockResult in
  match nth_error steps index with
  | Some step =>
      update (set_currentAgentStep (Some (node step))) ;;
      update (fun prev => set_agentSteps (agentSteps prev ++ [completed step]) prev) ;;
      emit (setTimeout (timer_processStep (S index)) 800)
  | None =>
      update (set_currentAgentStep None) ;;
      update (set_isProcessing false) ;;
      update (set_recordingState idle) ;;
      update (set_result (Some mockResult))
  end.

(** [processAudio] *)
Definition processAudio : Handler :=
  update (set_recordingState processing) ;;
  update (set_isProcessing true) ;;
  update (set_agentSteps []) ;;
  processStep 0.

(** [handleFileUpload] *)
Definition handleFileUpload (file : option Blob) : Handler :=
  match file with
  | Some f =>
      update (set_audioBlob (Some f)) ;;
      update (set_finalTranscript (lit "Uploaded: " ++ blob_name f)) ;;
      processAudio
  | None => skip
  end.

(** [playTTS] *)
Definition playTTS : Handler :=
  fun s =>
    if isPlayingTTS s then
      (update (set_isPlayingTTS false) ;; update (set_ttsProgress 0)) s
    else
      (update (set_isPlayingTTS true) ;; emit (setTimeout timer_tts_done 3000)) s.

(** The interval of the effect hook, which runs while [isPlayingTTS]:
    [setTtsProgress((prev) => Math.min(prev + 2, 100))]. *)
Definition ttsInterval_tick : Handler :=
  fun s =>
    when (isPlayingTTS s)
      (update (fun prev => set_ttsProgress
                 (if Qle_bool (ttsProgress prev + 2) 100 then ttsProgress prev + 2 else 100) prev)) s.

Definition fire (t : Timer) : Handler :=
  match t with
  | timer_processStep index => processStep index
  | timer_tts_done => update (set_ttsProgress 100) ;; update (set_isPlayingTTS false)
  end.

Definition scheduled (effects : list Effect) : list Timer :=
  flat_map (fun e => match e with setTimeout t _ => [t] | _ => [] end) effects.

(** Fires the pending timers in order, each followed by the timers it
    asks for in turn, at most [fuel] of them; returns what is still
    pending. *)
Fixpoint drain (fuel : nat) (pending : list Timer) (s : State)
    : State * list Effect * list Timer :=
  match fuel, pending with
  | O, _ => (s, [], pending)
  | _, [] => (s, [], [])
  | S fuel', t :: rest =>
      let (s1, e1) := fire t s in
      let '(s2, e2, pending') := drain fuel' (rest ++ scheduled e1) s1 in
      (s2, e1 ++ e2, pending')
  end.

(** [processAudio] and the timers that carry its loop on, with nothing
    else in between. *)
Definition pipeline_run (fuel : nat) (s : State) : State * list Effect * list Timer :=
  let (s1, e1) := processAudio s in
  let '(s2, e2, pending) := drain fuel (scheduled e1) s1 in
  (s2, e1 ++ e2, pending).

End Prototype.

(* ================================================================== *)
(** ** The retriever's merge policy *)
(* ================================================================== *)

(** The retriever runs on the server, behind [/api/query] and
    [/api/agent]; the client sources hold none of its code, only the
    requests to it. *)

Module Retriever.

Inductive Provenance :=
| private_doc (docId : jsstring)
| web_page (url label : jsstring).

(** Modelled from the spec: the retriever's document type, which is
    missing from the client sources, after the normalized Document of the
    data model. *)
Record Document := {
  doc_id : jsstring;
  title : jsstring;
  price : Q;
  rating : Q;
  ratingCount : N;
  brand : jsstring;
  material : jsstring;
  content : jsstring;
  score : Q;
  provenance : Provenance
}.

(** Modelled from the spec: the retriever's constraint type, which is
    missing from the client sources, after the ConstraintSet of the data
    model: a price range with optional ends, material and category tags
    and a brand allow-list. *)
Record ConstraintSet := {
  min_price : option Q;
  max_price : option Q;
  tags : list jsstring;
  brands : list jsstring
}.

Section Merge.

(** How a tag or a brand list is matched against a document, and the size
    the final list is cut to, are left open by the design. *)
Variable tags_present : ConstraintSet -> Document -> bool.
Variable limit : nat.

(** Modelled from the spec: the hard price bound of the merge policy, a
    price outside the range violates it. *)
Definition in_price_range (cs : ConstraintSet) (d : Document) : bool :=
  match min_price cs with Some lo => Qle_bool lo (price d) | None => true end
  && match max_price cs with Some hi => Qle_bool (price d) hi | None => true end.

(** Modelled from the spec: a document violates the hard bounds when its
    price is outside the range or a required tag is absent. *)
Definition admissible (cs : ConstraintSet) (d : Document) : bool :=
  in_price_range cs d && tags_present cs d.

(** Modelled from the spec: the ranking order, relevance score descending
    with ties broken by rating count descending; [outranks a b] says that
    [a] must stand before [b]. *)
Definition outranks (a b : Document) : bool :=
  match score a ?= score b with
  | Gt => true
  | Lt => false
  | Eq => (ratingCount b <? ratingCount a)%N
  end.

(** Modelled from the spec: the sort of the merge policy, as a stable
    insertion sort; documents of equal rank keep the order in which they
    were gathered. *)
Fixpoint insert (d : Document) (l : list Document) : list Document :=
  match l with
  | [] => [d]
  | x :: rest => if outranks x d then x :: insert d rest else d :: l
  end.

(** Modelled from the spec: the sort of the merge policy. *)
Definition sort (l : list Document) : list Document := fold_right insert [] l.

(** Modelled from the spec: the concatenation of the merge policy, over
    the sources that answered; an unreachable source ([None]) contributes
    nothing. *)
Definition gathered (sources : list (option (list Document))) : list Document :=
  List.concat (map (fun r => match r with Some docs => docs | None => [] end) sources).

(** Modelled from the spec: the retriever's merge function, which is
    missing from the client sources, after the merge policy of the
    Multi-Source Retriever: concatenate the normalized documents, filter
    out those that violate the hard bounds, sort, truncate. *)
Definition merge (cs : ConstraintSet) (sources : list (option (list Document)))
    : list Document :=
  firstn limit (sort (filter (admissible cs) (gathered sources))).

End Merge.

End Retriever.

(* ================================================================== *)
(** ** Facts about strings and numbers *)
(* ================================================================== *)

Module JSFacts.

Lemma eqb_eq a b : eqb a b = true <-> a = b.
Proof. unfold eqb. destruct (list_eq_dec N.eq_dec a b); intuition congruence. Qed.

Lemma truthy_false s : truthy s = false <-> s = [].
Proof. destruct s; simpl; intuition congruence. Qed.

Lemma trimStart_nil_iff s :
  trimStart s = [] <-> forallb is_white_space s = true.
Proof.
  induction s as [|c s IH]; simpl; [tauto|].
  destruct (is_white_space c); simpl; [exact IH|]. intuition congruence.
Qed.

Lemma forallb_rev {A} (p : A -> bool) l : forallb p (rev l) = forallb p l.
Proof.
  induction l as [|a l IH]; simpl; [reflexivity|].
  rewrite forallb_app, IH. simpl. rewrite andb_true_r. apply andb_comm.
Qed.

Lemma trimStart_split s :
  exists p, s = p ++ trimStart s /\ forallb is_white_space p = true.
Proof.
  induction s as [|c s (p & E & W)]; simpl.
  - now exists [].
  - destruct (is_white_space c) eqn:Ec.
    + exists (c :: p). simpl. rewrite Ec, W. split; [now f_equal|reflexivity].
    + now exists [].
Qed.

(** A string trims to the empty string exactly when it holds nothing but
    white space. *)
Lemma trim_nil_iff s : trim s = [] <-> forallb is_white_space s = true.
Proof.
  unfold trim, trimEnd. split.
  - intros H. apply (f_equal (@rev _)) in H. rewrite rev_involutive in H. simpl in H.
    apply trimStart_nil_iff in H. rewrite forallb_rev in H.
    destruct (trimStart_split s) as (p & E & W).
    rewrite E, forallb_app, W, H. reflexivity.
  - intros H.
    assert (E : trimStart s = []) by now apply trimStart_nil_iff.
    rewrite E. reflexivity.
Qed.

Example trim_sample : trim (lit "  organic shampoo ") = lit "organic shampoo".
Proof. reflexivity. Qed.

Example trim_no_break_space : trim [0xA0; 0x2003; 0x9]%N = [].
Proof. reflexivity. Qed.

End JSFacts.

Module NumFacts.

Import Num.

Lemma Qltb_lt x y : Qltb x y = true <-> x < y.
Proof. unfold Qltb, Qlt. apply Z.ltb_lt. Qed.

Lemma Qltb_ge x y : Qltb x y = false <-> y <= x.
Proof. unfold Qltb, Qle. apply Z.ltb_ge. Qed.

Lemma truncate_bounds (q : Q) (lo hi : Z) :
  inject_Z lo <= q -> q <= inject_Z hi -> (lo <= truncate q <= hi)%Z.
Proof.
  unfold truncate, Qle. destruct q as [n d]. simpl. intros Hlo Hhi.
  rewrite Z.mul_1_r in *.
  split.
  - apply Z.quot_le_lower_bound; lia.
  - apply Z.quot_le_upper_bound; lia.
Qed.

Lemma ToInt16_small (q : Q) :
  (-32768 <= truncate q <= 32767)%Z -> ToInt16 (Fin q) = truncate q.
Proof.
  intros H. unfold ToInt16. set (t := truncate q) in *.
  destruct (Z.leb_spec 32768 (t mod 65536)) as [L|L].
  - assert (t < 0)%Z.
    { destruct (Z.lt_ge_cases t 0); [assumption|].
      rewrite Z.mod_small in L; lia. }
    replace t with ((t + 65536) + (-1) * 65536)%Z at 1 by ring.
    rewrite Z_mod_plus_full, Z.mod_small; lia.
  - assert (0 <= t)%Z.
    { destruct (Z.lt_ge_cases t 0); [|assumption].
      replace t with ((t + 65536) + (-1) * 65536)%Z in L by ring.
      rewrite Z_mod_plus_full, Z.mod_small in L; lia. }
    rewrite Z.mod_small; lia.
Qed.

Lemma ToInt16_range x : (-32768 <= ToInt16 x <= 32767)%Z.
Proof.
  destruct x as [| | |q]; simpl; try lia.
  pose proof (Z.mod_pos_bound (truncate q) 65536 eq_refl).
  destruct (Z.leb_spec 32768 (truncate q mod 65536)); lia.
Qed.

End NumFacts.

(* ================================================================== *)
(** ** Facts about handlers *)
(* ================================================================== *)

(** Unfolds the handler combinators and computes. *)
Ltac handler := cbv [andThen update emit skip when]; cbn.

Module HandlerFacts.

Lemma fst_andThen {S E} (h k : handler S E) s :
  fst ((h ;; k) s) = fst (k (fst (h s))).
Proof. unfold andThen. destruct (h s) as [s1 e1]. simpl. now destruct (k s1). Qed.

Lemma snd_andThen {S E} (h k : handler S E) s :
  snd ((h ;; k) s) = snd (h s) ++ snd (k (fst (h s))).
Proof. unfold andThen. destruct (h s) as [s1 e1]. simpl. now destruct (k s1). Qed.

End HandlerFacts.

(* ================================================================== *)
(** ** Facts about the PCM encoder *)
(* ================================================================== *)

Module PcmFacts.

Import Num NumFacts VoiceChat.

Lemma pcm_clamp_clamped x : clamped (pcm_clamp x).
Proof.
  unfold pcm_clamp.
  destruct x as [| | |q]; simpl; try (constructor; split; discriminate).
  destruct (Qltb q 1) eqn:E1; simpl.
  - apply Qltb_lt in E1.
    destruct (Qltb (-1) q) eqn:E2.
    + apply Qltb_lt in E2. constructor. split; apply Qlt_le_weak; assumption.
    + constructor. split; discriminate.
  - constructor. split; discriminate.
Qed.

Lemma pcm_scaled_fits x : fits_int16 (pcm_scaled x) (pcm_sample x).
Proof.
  unfold pcm_sample, pcm_scaled.
  destruct (pcm_clamp_clamped x) as [|q [Hlo Hhi]]; simpl.
  - constructor.
  - assert (B : forall r, -32768 <= r <= 32767 -> fits_int16 (Fin r) (ToInt16 (Fin r))).
    { intros r [L H]. rewrite ToInt16_small.
      - constructor. now split.
      - apply truncate_bounds; assumption. }
    destruct (Qltb q 0) eqn:E; simpl scale.
    + apply Qltb_lt in E. apply B. unfold Qle, Qlt in *. simpl in *. lia.
    + apply Qltb_ge in E. apply B. unfold Qle, Qlt in *. simpl in *. lia.
Qed.

Example pcmData_samples :
  pcmData [Fin 0.5; Fin (-0.5); Fin 1; Fin (-1); Fin 2; Fin (-7); NaN; PosInf; NegInf]
  = [16383; -16384; 32767; -32768; 32767; -32768; 0; 32767; -32768]%Z.
Proof. reflexivity. Qed.

End PcmFacts.

Import Num JSFacts NumFacts PcmFacts.

Lemma onaudioprocess_effects p inputData s :
  snd (VoiceChat.onaudioprocess p inputData s) = []
  \/ snd (VoiceChat.onaudioprocess p inputData s)
     = [VoiceChat.ws_send (VoiceChat.audio (VoiceChat.pcmData inputData)
                                           (VoiceChat.proc_userLanguage p))].
Proof.
  unfold VoiceChat.onaudioprocess.
  destruct (negb (VoiceChat.isRecordingRef s) || negb (VoiceChat.is_open (VoiceChat.wsRef s)));
    [left|right]; reflexivity.
Qed.

(* ================================================================== *)
(** ** Facts about VoiceChat *)
(* ================================================================== *)

Module VoiceChatFacts.

Import VoiceChat HandlerFacts.

Lemma voice_inputs_app ms ms' :
  voice_inputs (ms ++ ms') = voice_inputs ms ++ voice_inputs ms'.
Proof. unfold voice_inputs. now rewrite filter_app, map_app. Qed.

#[local] Arguments voice_inputs : simpl never.

Lemma requestAgentResponse_messages l q s :
  messages (fst (requestAgentResponse l q s)) = messages s.
Proof.
  unfold requestAgentResponse. destruct (negb (truthy (trim q))); reflexivity.
Qed.

(** One event adds to the voice inputs exactly the final segment it
    delivers, if any. *)
Lemma handle_voice_inputs e s :
  voice_inputs (messages (fst (handle e s)))
  = voice_inputs (messages s) ++ final_segments [e].
Proof.
  destruct e as [ws now [text [|]| |]| | | |now r|r|text|now|mic|l| |p d];
    cbn [handle final_segments]; rewrite ?app_nil_r.
  - (* a final transcript *)
    unfold ws_onmessage. cbn [andb].
    destruct (truthy text) eqn:T.
    + rewrite !fst_andThen, requestAgentResponse_messages. cbn.
      rewrite voice_inputs_app. reflexivity.
    + cbn. now rewrite app_nil_r.
  - (* an interim transcript *) reflexivity.
  - reflexivity.
  - reflexivity.
  - reflexivity.
  - reflexivity.
  - unfold ws_opened, update. cbn. now destruct (wsRef s).
  - unfold requestAgentResponse_settled. handler.
    rewrite voice_inputs_app. destruct r; cbn; now rewrite app_nil_r.
  - destruct r as [m|st d|[[|v vs]|]]; try reflexivity.
  - reflexivity.
  - unfold sendTextMessage. destruct (negb (truthy (trim (input s)))); [reflexivity|].
    rewrite !fst_andThen, requestAgentResponse_messages. cbn.
    rewrite voice_inputs_app. cbn. now rewrite app_nil_r.
  - destruct mic; [|reflexivity].
    unfold startRecording, connectWebSocket. rewrite fst_andThen. cbn.
    now destruct (is_open (wsRef s)).
  - reflexivity.
  - unfold stopRecording.
    destruct (processorRef s), (audioContextRef s), (audioStreamRef s),
      (is_open (wsRef s)); reflexivity.
  - unfold onaudioprocess.
    now destruct (negb (isRecordingRef s) || negb (is_open (wsRef s))).
Qed.

Lemma final_segments_cons e events :
  final_segments (e :: events) = final_segments [e] ++ final_segments events.
Proof.
  destruct e as [ws now [text [|]| |]| | | |now r|r|text|now|mic|l| |p d];
    try reflexivity.
  cbn. now destruct (truthy text).
Qed.

(** Over any run, the messages that came in by voice are the segments
    delivered as final, in order. *)
Lemma run_voice_inputs events s :
  voice_inputs (messages (fst (run events s)))
  = voice_inputs (messages s) ++ final_segments events.
Proof.
  revert s. induction events as [|e events IH]; intros s.
  - cbn. now rewrite app_nil_r.
  - cbn [run]. rewrite fst_andThen, IH, handle_voice_inputs.
    rewrite (final_segments_cons e events), app_assoc. reflexivity.
Qed.

(** Every agent request of a run carries a trimmed, non-empty text. *)
Lemma requestAgentResponse_requested l q s :
  requested (snd (requestAgentResponse l q s))
  = if truthy (trim q) then [trim q] else [].
Proof.
  unfold requestAgentResponse. destruct (truthy (trim q)); reflexivity.
Qed.

End VoiceChatFacts.

Lemma find_existsb {A} (f : A -> bool) l :
  existsb f l = match find f l with Some _ => true | None => false end.
Proof.
  induction l as [|a l IH]; simpl; [reflexivity|]. destruct (f a); simpl; auto.
Qed.

Lemma syncSettingsWithVoices_voiceId voices prev fallback :
  VoiceChat.voiceId (VoiceChat.syncSettingsWithVoices voices prev fallback)
  = if existsb (fun voice => eqb (VoiceChat.vo_id voice) (VoiceChat.voiceId prev)) voices
    then VoiceChat.voiceId prev
    else match fallback with
         | Some fb => VoiceChat.vo_id fb
         | None => VoiceChat.voiceId prev
         end.
Proof.
  unfold VoiceChat.syncSettingsWithVoices. rewrite find_existsb.
  destruct (find _ voices) as [m|].
  - destruct (truthy (VoiceChat.vo_language m)
              && negb (eqb (VoiceChat.vo_language m) (VoiceChat.language prev)));
      reflexivity.
  - destruct fallback; reflexivity.
Qed.

Lemma existsb_id_In voices i :
  existsb (fun voice => eqb (VoiceChat.vo_id voice) i) voices = true ->
  In i (map VoiceChat.vo_id voices).
Proof.
  intros H. apply existsb_exists in H. destruct H as (v & Hin & E).
  apply eqb_eq in E. subst i. now apply in_map.
Qed.

Module RequestFacts.

Import VoiceChat HandlerFacts VoiceChatFacts.

#[local] Arguments requested : simpl never.

Lemma requested_app a b : requested (a ++ b) = requested a ++ requested b.
Proof. unfold requested. apply flat_map_app. Qed.

Lemma requestAgentResponse_nonblank l q s :
  Forall (fun text => text <> []) (requested (snd (requestAgentResponse l q s))).
Proof.
  rewrite requestAgentResponse_requested.
  destruct (truthy (trim q)) eqn:T; constructor; [|constructor].
  intros E. rewrite E in T. discriminate T.
Qed.

Lemma handle_nonblank e s :
  Forall (fun text => text <> []) (requested (snd (handle e s))).
Proof.
  assert (N : Forall (fun text : jsstring => text <> []) (requested [])) by constructor.
  destruct e as [ws now [text [|]| |]| | | |now r|r|text|now|mic|l| |p d];
    cbn [handle]; try exact N.
  - unfold ws_onmessage. cbn [andb]. destruct (truthy text); [|exact N].
    rewrite !snd_andThen, !requested_app. cbn [snd update app].
    apply requestAgentResponse_nonblank.
  - destruct r as [m|st d|[[|v vs]|]]; exact N.
  - unfold sendTextMessage. destruct (negb (truthy (trim (input s)))); [exact N|].
    rewrite !snd_andThen, !requested_app. cbn [snd update app].
    apply requestAgentResponse_nonblank.
  - destruct mic; [|exact N].
    unfold startRecording, connectWebSocket. rewrite snd_andThen. cbn.
    destruct (is_open (wsRef s)); exact N.
  - unfold stopRecording.
    destruct (processorRef s), (audioContextRef s), (audioStreamRef s),
      (is_open (wsRef s)); exact N.
  - unfold onaudioprocess.
    destruct (negb (isRecordingRef s) || negb (is_open (wsRef s))); exact N.
Qed.

(** Over any run of VoiceChat, no request to the agent carries a blank
    query. *)
Lemma run_nonblank events s :
  Forall (fun text => text <> []) (requested (snd (run events s))).
Proof.
  revert s. induction events as [|e events IH]; intros s.
  - constructor.
  - cbn [run]. rewrite snd_andThen, requested_app. apply Forall_app.
    split; [apply handle_nonblank|apply IH].
Qed.

End RequestFacts.

(* ================================================================== *)
(** ** Facts about ShopifyVoiceAssistant *)
(* ================================================================== *)

Module ShopifyFacts.

Import Shop ShopifyVoiceAssistant HandlerFacts.

Lemma or_else_nil_r a : or_else a [] = a.
Proof. now destruct a. Qed.

(** The loop of [onresult] sorts the trimmed segments by their flag. *)
Lemma onresult_loop_spec rs interim final :
  onresult_loop rs (interim, final)
  = (interim ++ List.concat (map (fun r => trim (rr_transcript r) ++ lit " ")
                                 (filter (fun r => negb (isFinal r)) rs)),
     final ++ List.concat (map (fun r => trim (rr_transcript r) ++ lit " ")
                               (filter isFinal rs))).
Proof.
  revert interim final. induction rs as [|r rs IH]; intros interim final; cbn.
  - now rewrite !app_nil_r.
  - destruct (isFinal r); cbn; rewrite IH; now rewrite <- !app_assoc.
Qed.

Lemma recognition_onresult_spec e s :
  finalTranscript (fst (recognition_onresult e s))
    = append_final (finalTranscript s) (final_text e)
  /\ liveTranscript (fst (recognition_onresult e s))
    = (if truthy (interim_text e) then interim_text e else liveTranscript s)
  /\ snd (recognition_onresult e s) = [].
Proof.
  unfold recognition_onresult, append_final, final_text, interim_text.
  rewrite onresult_loop_spec. cbn [app].
  destruct (truthy (List.concat (map _ (filter (fun r => negb (isFinal r)) _))));
    destruct (truthy (List.concat (map _ (filter isFinal _)))); handler; auto.
Qed.

Lemma processStep_finalTranscript c i s :
  finalTranscript (fst (processStep c i s)) = finalTranscript s.
Proof. unfold processStep. now destruct (nth_error (stepLog mockResult) i). Qed.

(** Apart from recognition results, no event of a session that goes on
    touches the final transcript. *)
Lemma handle_finalTranscript e s :
  streaming e = true ->
  finalTranscript (fst (handle e s)) = delivered_final [e] (finalTranscript s).
Proof.
  destruct e as [b| |e| |mr|r|f|t|c r|t|r p|r|r p|t time d|t|t];
    cbn [streaming handle delivered_final]; intros H; try discriminate H.
  - unfold startRecording. destruct (microphone b), (speechRecognition b); reflexivity.
  - reflexivity.
  - apply recognition_onresult_spec.
  - reflexivity.
  - destruct f; reflexivity.
  - destruct t; try reflexivity. apply processStep_finalTranscript.
  - destruct r; reflexivity.
  - destruct t; cbn [toggle]; [unfold playTranscriptTTS|unfold playAnswerTTS].
    + destruct (isPlayingTranscriptTTS s), (transcriptAudioRef s); reflexivity.
    + destruct (isPlayingAnswerTTS s), (answerAudioRef s); reflexivity.
  - destruct r, p; reflexivity.
  - destruct r; reflexivity.
  - destruct r as [m|st dt|[text|]], p; try reflexivity;
      unfold playAnswerTTS_fetched; destruct (truthy text); reflexivity.
  - destruct t, d as [d|]; try reflexivity;
      unfold audio_ontimeupdate; destruct (negb (Qeq_bool d 0)); reflexivity.
  - destruct t; reflexivity.
  - destruct t; reflexivity.
Qed.

Lemma delivered_final_cons e events prev :
  delivered_final (e :: events) prev
  = delivered_final events (delivered_final [e] prev).
Proof. destruct e; reflexivity. Qed.

(** While the session goes on, the final transcript is assembled from
    the segments delivered as final and from nothing else. *)
Lemma run_finalTranscript events s :
  forallb streaming events = true ->
  finalTranscript (fst (run events s)) = delivered_final events (finalTranscript s).
Proof.
  revert s. induction events as [|e events IH]; intros s H.
  - reflexivity.
  - cbn [forallb] in H. apply andb_prop in H. destruct H as [He Hev].
    cbn [run]. rewrite fst_andThen, (IH _ Hev), (handle_finalTranscript _ _ He).
    now rewrite (delivered_final_cons e events).
Qed.

Lemma stopRecording_transcripts s :
  finalTranscript (fst (stopRecording s)) = or_else (finalTranscript s) (liveTranscript s)
  /\ liveTranscript (fst (stopRecording s)) = [].
Proof.
  unfold stopRecording.
  destruct (mediaRecorderRef s) as [[[] ? ?]|], (recognitionRef s), (audioBlob s),
    (truthy (finalTranscript s)); handler; auto.
Qed.

End ShopifyFacts.

(* ================================================================== *)
(** ** Facts about the merge policy *)
(* ================================================================== *)

Module RetrieverFacts.

Import Retriever.

Section Merge.

Variable tags_present : ConstraintSet -> Document -> bool.
Variable limit : nat.

Lemma In_firstn {A} n (l : list A) x : In x (firstn n l) -> In x l.
Proof.
  revert l. induction n as [|n IH]; intros [|y l]; cbn; try tauto.
  intros [H|H]; [now left|right; now apply IH].
Qed.

Lemma In_insert d x l : In x (insert d l) <-> x = d \/ In x l.
Proof.
  induction l as [|y l IH]; cbn.
  - intuition.
  - destruct (outranks y d); cbn; rewrite ?IH; intuition.
Qed.

Lemma In_sort x l : In x (sort l) <-> In x l.
Proof.
  induction l as [|y l IH]; cbn; [tauto|].
  rewrite In_insert, IH. intuition.
Qed.

(** Whatever the merge returns was gathered from a source and passed the
    filter. *)
Lemma In_merge cs sources d :
  In d (merge tags_present limit cs sources) ->
  In d (gathered sources) /\ admissible tags_present cs d = true.
Proof.
  unfold merge. intros H. apply In_firstn, In_sort, filter_In in H. exact H.
Qed.

Lemma admissible_max_price cs d hi :
  max_price cs = Some hi -> admissible tags_present cs d = true -> price d <= hi.
Proof.
  unfold admissible, in_price_range. intros E H. rewrite E in H.
  apply andb_prop in H. destruct H as [H _].
  apply andb_prop in H. destruct H as [_ H]. now apply Qle_bool_iff.
Qed.

End Merge.

End RetrieverFacts.

(* ================================================================== *)
(** ** The transcript *)
(* ================================================================== *)

(** C1, as stated, fails in ShopifyVoiceAssistant: a session in which
    the recogniser delivers one interim segment and no final one ends,
    once it is stopped, with that interim text as its final transcript. *)
Lemma interim_promoted_on_stop :
  let b := {| ShopifyVoiceAssistant.microphone := Shop.granted;
              ShopifyVoiceAssistant.opusSupported := true;
              ShopifyVoiceAssistant.speechRecognition := true |} in
  let events :=
    [ ShopifyVoiceAssistant.ev_start b;
      ShopifyVoiceAssistant.ev_result
        {| ShopifyVoiceAssistant.resultIndex := 0;
           ShopifyVoiceAssistant.results :=
             [ {| ShopifyVoiceAssistant.rr_transcript := lit "hello";
                  ShopifyVoiceAssistant.isFinal := false |} ] |};
      ShopifyVoiceAssistant.ev_stop ] in
  ShopifyVoiceAssistant.delivered_final events [] = []
  /\ ShopifyVoiceAssistant.finalTranscript
       (fst (ShopifyVoiceAssistant.run events ShopifyVoiceAssistant.initial))
     = lit "hello "
  /\ ShopifyVoiceAssistant.finalTranscript
       (fst (ShopifyVoiceAssistant.run events ShopifyVoiceAssistant.initial))
     <> ShopifyVoiceAssistant.delivered_final events [].
Proof. repeat split. intros H. vm_compute in H. discriminate H. Qed.

(** C1, amended: interim text is not taken for final while the session
    goes on.  In VoiceChat the messages that come in by voice are, over
    any run, exactly the non-empty segments the Transcript Source marked
    final, and an interim segment only replaces the realtime transcript.
    In ShopifyVoiceAssistant, as long as the session is neither stopped
    nor answered by a batch transcription, the final transcript is
    assembled from the segments the recogniser marked final, and the
    interim segments only replace the live transcript.  On stop, however,
    ShopifyVoiceAssistant takes the live (interim) transcript for the
    final one when no final segment has arrived. *)
Theorem transcript_finality :
  (forall events s,
     VoiceChat.voice_inputs (VoiceChat.messages (fst (VoiceChat.run events s)))
     = VoiceChat.voice_inputs (VoiceChat.messages s) ++ VoiceChat.final_segments events)
  /\ (forall ws now text s,
     let after := VoiceChat.ws_onmessage ws now (VoiceChat.transcript text false) s in
     VoiceChat.messages (fst after) = VoiceChat.messages s
     /\ VoiceChat.realtimeTranscript (fst after) = text
     /\ snd after = [])
  /\ (forall events s,
     forallb ShopifyVoiceAssistant.streaming events = true ->
     ShopifyVoiceAssistant.finalTranscript (fst (ShopifyVoiceAssistant.run events s))
     = ShopifyVoiceAssistant.delivered_final events (ShopifyVoiceAssistant.finalTranscript s))
  /\ (forall e s,
     ShopifyVoiceAssistant.liveTranscript (fst (ShopifyVoiceAssistant.recognition_onresult e s))
     = if truthy (ShopifyVoiceAssistant.interim_text e)
       then ShopifyVoiceAssistant.interim_text e
       else ShopifyVoiceAssistant.liveTranscript s)
  /\ (forall s,
     ShopifyVoiceAssistant.finalTranscript (fst (ShopifyVoiceAssistant.stopRecording s))
     = or_else (ShopifyVoiceAssistant.finalTranscript s)
               (ShopifyVoiceAssistant.liveTranscript s)).
Proof.
  split; [|split; [|split; [|split]]].
  - exact VoiceChatFacts.run_voice_inputs.
  - intros ws now text s. cbv zeta. repeat split.
  - exact ShopifyFacts.run_finalTranscript.
  - intros e s. apply ShopifyFacts.recognition_onresult_spec.
  - intros s. apply ShopifyFacts.stopRecording_transcripts.
Qed.

(** A session in which an interim segment is followed by a final one. *)
Lemma transcript_finality_witness :
  let b := {| ShopifyVoiceAssistant.microphone := Shop.granted;
              ShopifyVoiceAssistant.opusSupported := true;
              ShopifyVoiceAssistant.speechRecognition := true |} in
  let events :=
    [ ShopifyVoiceAssistant.ev_start b;
      ShopifyVoiceAssistant.ev_result
        {| ShopifyVoiceAssistant.resultIndex := 0;
           ShopifyVoiceAssistant.results :=
             [ {| ShopifyVoiceAssistant.rr_transcript := lit "hel";
                  ShopifyVoiceAssistant.isFinal := false |} ] |};
      ShopifyVoiceAssistant.ev_result
        {| ShopifyVoiceAssistant.resultIndex := 0;
           ShopifyVoiceAssistant.results :=
             [ {| ShopifyVoiceAssistant.rr_transcript := lit " hello";
                  ShopifyVoiceAssistant.isFinal := true |} ] |} ] in
  forallb ShopifyVoiceAssistant.streaming events = true
  /\ ShopifyVoiceAssistant.delivered_final events [] = lit "hello "
  /\ ShopifyVoiceAssistant.finalTranscript
       (fst (ShopifyVoiceAssistant.run events ShopifyVoiceAssistant.initial))
     = ShopifyVoiceAssistant.delivered_final events [].
Proof.
  intros b events. split; [reflexivity|]. split; [reflexivity|].
  exact (proj1 (proj2 (proj2 transcript_finality)) events
           ShopifyVoiceAssistant.initial eq_refl).
Defined.

(* ================================================================== *)
(** ** The pipeline run *)
(* ================================================================== *)

(** C2: a pipeline run appends the step-log entries in the order router,
    planner, retriever, answerer, one entry per stage, each marked
    completed: after [processAudio] and the four timers that carry its
    loop on, nothing is pending and the log holds exactly these four
    entries, and at every earlier point of the run the log is a prefix of
    that order.  This holds from every state of ShopifyVoiceAssistant and
    of its prototype. *)
Theorem step_log_order :
  let stages := [lit "router"; lit "planner"; lit "retriever"; lit "answerer"] in
  (forall closure_agentSteps (s : ShopifyVoiceAssistant.State),
     let '(s', _, pending) := ShopifyVoiceAssistant.pipeline_run 4 closure_agentSteps s in
     map Shop.node (ShopifyVoiceAssistant.agentSteps s') = stages
     /\ ShopifyVoiceAssistant.agentSteps s' = map Shop.completed (Shop.stepLog Shop.mockResult)
     /\ pending = []
     /\ ShopifyVoiceAssistant.isProcessing s' = false)
  /\ (forall fuel closure_agentSteps (s : ShopifyVoiceAssistant.State),
     let '(s', _, _) := ShopifyVoiceAssistant.pipeline_run fuel closure_agentSteps s in
     map Shop.node (ShopifyVoiceAssistant.agentSteps s') = firstn (S fuel) stages)
  /\ (forall s : Prototype.State,
     let '(s', _, pending) := Prototype.pipeline_run 4 s in
     map Shop.node (Prototype.agentSteps s') = stages
     /\ Prototype.agentSteps s' = map Shop.completed (Shop.stepLog Shop.mockResult)
     /\ pending = []
     /\ Prototype.isProcessing s' = false)
  /\ (forall fuel (s : Prototype.State),
     let '(s', _, _) := Prototype.pipeline_run fuel s in
     map Shop.node (Prototype.agentSteps s') = firstn (S fuel) stages).
Proof.
  cbv zeta. split; [|split; [|split]].
  - intros c s. repeat split.
  - intros fuel c s. destruct fuel as [|[|[|[|[|fuel]]]]]; reflexivity.
  - intros s. repeat split.
  - intros fuel s. destruct fuel as [|[|[|[|[|fuel]]]]]; reflexivity.
Qed.

(** C3, as stated, fails in ShopifyVoiceAssistant: when the query request
    is rejected the result that is shown holds the three mock products,
    not an empty list. *)
Lemma failed_query_shows_mock_products :
  let after := ShopifyVoiceAssistant.fetchQueryResults_settled []
                 (Rejected (lit "Failed to fetch")) ShopifyVoiceAssistant.initial in
  exists r, ShopifyVoiceAssistant.result (fst after) = Some r
            /\ List.length (Shop.products r) = 3%nat
            /\ Shop.products r <> [].
Proof.
  eexists. split; [reflexivity|]. split; [reflexivity|discriminate].
Qed.

(** C3, amended: when the query request fails (it is rejected or comes
    back with a status that is not OK), ShopifyVoiceAssistant falls back
    to its built-in mock result, with the mock products and no citation
    list, and alerts the user that mock data is shown; VoiceChat appends
    the assistant message that it cannot reach the product agent, which
    carries no metadata, so that no retrieved document and no citation is
    presented, and ends the responding state. *)
Theorem failed_query_fallbacks :
  (forall closure_agentSteps (r : Response ShopifyVoiceAssistant.QueryData)
          (s : ShopifyVoiceAssistant.State),
     failed r = true ->
     let after := ShopifyVoiceAssistant.fetchQueryResults_settled closure_agentSteps r s in
     ShopifyVoiceAssistant.result (fst after) = Some Shop.mockResult
     /\ Some (ShopifyVoiceAssistant.answerTranscript (fst after)) = Shop.answer Shop.mockResult
     /\ exists message,
          snd after = [ShopifyVoiceAssistant.alert
                         (lit "API Error: " ++ message ++ lit ". Showing mock data instead.")])
  /\ (forall now (r : Response VoiceChat.AgentAPIResponse) (s : VoiceChat.State),
     failed r = true ->
     let after := VoiceChat.requestAgentResponse_settled now r s in
     VoiceChat.messages (fst after) = VoiceChat.messages s ++ [VoiceChat.fallbackMessage now]
     /\ VoiceChat.content (VoiceChat.fallbackMessage now)
        = lit "I'm having trouble reaching the product agent right now."
     /\ VoiceChat.metadata (VoiceChat.fallbackMessage now) = None
     /\ VoiceChat.isAgentResponding (fst after) = false
     /\ snd after = []).
Proof.
  split.
  - intros c r s H. cbv zeta. destruct r as [m|st d|data].
    + handler. repeat split. now exists m.
    + handler. repeat split. eexists. reflexivity.
    + discriminate H.
  - intros now r s H. cbv zeta. destruct r as [m|st d|data].
    + handler. repeat split.
    + handler. repeat split.
    + discriminate H.
Qed.

(** The agent answering with status 503, and the query request being
    rejected. *)
Lemma failed_query_fallbacks_witness :
  (let after := VoiceChat.requestAgentResponse_settled 7 (NotOk 503 None) VoiceChat.initial in
   VoiceChat.messages (fst after) = [VoiceChat.fallbackMessage 7]
   /\ VoiceChat.metadata (VoiceChat.fallbackMessage 7) = None
   /\ snd after = [])
  /\ (let after := ShopifyVoiceAssistant.fetchQueryResults_settled []
                     (Rejected (lit "Failed to fetch")) ShopifyVoiceAssistant.initial in
      ShopifyVoiceAssistant.result (fst after) = Some Shop.mockResult).
Proof.
  split.
  - destruct (proj2 failed_query_fallbacks 7%N (NotOk 503 None) VoiceChat.initial
                eq_refl) as (A & _ & B & _ & C).
    split; [exact A | split; [exact B | exact C]].
  - exact (proj1 (proj1 failed_query_fallbacks [] (Rejected (lit "Failed to fetch"))
                    ShopifyVoiceAssistant.initial eq_refl)).
Defined.

(* ================================================================== *)
(** ** Playback *)
(* ================================================================== *)

(** C4, as stated, fails for two presses that start from the playing
    state: the first press stops the target, the second one finds it idle
    and starts it anew, so that the target ends playing, with a new
    synthesis requested, and not idle. *)
Lemma double_toggle_from_playing_restarts :
  let s := fst (ShopifyVoiceAssistant.run
                  [ ShopifyVoiceAssistant.ev_toggle ShopifyVoiceAssistant.answer_playback;
                    ShopifyVoiceAssistant.ev_answer_tts_settled (Ok (lit "/api/tts/audio/1"));
                    ShopifyVoiceAssistant.ev_answer_tts_fetched (Ok None) None;
                    ShopifyVoiceAssistant.ev_audio_time ShopifyVoiceAssistant.answer_playback 3 (Some 12) ]
                  ShopifyVoiceAssistant.initial) in
  let twice := ShopifyVoiceAssistant.run
                 [ ShopifyVoiceAssistant.ev_toggle ShopifyVoiceAssistant.answer_playback;
                   ShopifyVoiceAssistant.ev_toggle ShopifyVoiceAssistant.answer_playback ] s in
  ShopifyVoiceAssistant.isPlayingAnswerTTS s = true
  /\ ShopifyVoiceAssistant.isPlayingAnswerTTS (fst twice) = true
  /\ snd twice = [ ShopifyVoiceAssistant.audio_pause;
                   ShopifyVoiceAssistant.fetch_tts (lit "Answer not available") ].
Proof. repeat split. Qed.

(** C4, amended: for each playback target, pressing the play toggle while
    the target is playing stops it: the audio element is paused and
    rewound, progress is set to zero, the target is idle again and no new
    synthesis is requested.  Hence two presses in a row from the idle
    state, the second one meeting the playing state the first one set up,
    leave the target idle at progress zero; two presses in a row from the
    playing state leave it at progress zero too, with the element rewound,
    but playing anew.  No state keeps a paused position.  The prototype's
    timed player behaves the same way. *)
Theorem toggle_while_playing_resets :
  (forall (t : ShopifyVoiceAssistant.Target) (s : ShopifyVoiceAssistant.State),
     ShopifyVoiceAssistant.isPlaying t s = true ->
     let after := ShopifyVoiceAssistant.toggle t s in
     ShopifyVoiceAssistant.isPlaying t (fst after) = false
     /\ ShopifyVoiceAssistant.progress t (fst after) = 0
     /\ ShopifyVoiceAssistant.audioRef t (fst after)
        = ShopifyVoiceAssistant.rewind (ShopifyVoiceAssistant.audioRef t s)
     /\ forall text, ~ In (ShopifyVoiceAssistant.fetch_tts text) (snd after))
  /\ (forall (t : ShopifyVoiceAssistant.Target) (s : ShopifyVoiceAssistant.State),
     let first := ShopifyVoiceAssistant.toggle t s in
     let second := ShopifyVoiceAssistant.toggle t (fst first) in
     ShopifyVoiceAssistant.isPlaying t (fst first) = negb (ShopifyVoiceAssistant.isPlaying t s)
     /\ ShopifyVoiceAssistant.isPlaying t (fst second) = ShopifyVoiceAssistant.isPlaying t s
     /\ ShopifyVoiceAssistant.progress t (fst second) = 0
     /\ ShopifyVoiceAssistant.audioRef t (fst second)
        = ShopifyVoiceAssistant.rewind (ShopifyVoiceAssistant.audioRef t s))
  /\ (forall s : Prototype.State,
     Prototype.isPlayingTTS s = true ->
     let after := Prototype.playTTS s in
     Prototype.isPlayingTTS (fst after) = false
     /\ Prototype.ttsProgress (fst after) = 0
     /\ snd after = [])
  /\ (forall s : Prototype.State,
     let first := Prototype.playTTS s in
     let second := Prototype.playTTS (fst first) in
     Prototype.isPlayingTTS (fst first) = negb (Prototype.isPlayingTTS s)
     /\ Prototype.isPlayingTTS (fst second) = Prototype.isPlayingTTS s
     /\ Prototype.ttsProgress (fst second) = 0).
Proof.
  split; [|split; [|split]].
  - intros [] s H; cbv zeta; cbn in H |- *;
      [unfold ShopifyVoiceAssistant.playTranscriptTTS
      |unfold ShopifyVoiceAssistant.playAnswerTTS]; rewrite H.
    + destruct (ShopifyVoiceAssistant.transcriptAudioRef s) eqn:E; handler;
        rewrite ?E; repeat split; intros text A; cbn in A; intuition discriminate.
    + destruct (ShopifyVoiceAssistant.answerAudioRef s) eqn:E; handler;
        rewrite ?E; repeat split; intros text A; cbn in A; intuition discriminate.
  - intros [] s; cbv zeta; cbn [ShopifyVoiceAssistant.toggle
      ShopifyVoiceAssistant.isPlaying ShopifyVoiceAssistant.progress
      ShopifyVoiceAssistant.audioRef].
    + unfold ShopifyVoiceAssistant.playTranscriptTTS.
      destruct (ShopifyVoiceAssistant.isPlayingTranscriptTTS s) eqn:P,
        (ShopifyVoiceAssistant.transcriptAudioRef s) eqn:E;
        handler; rewrite ?P, ?E; handler; rewrite ?P, ?E; repeat split.
    + unfold ShopifyVoiceAssistant.playAnswerTTS.
      destruct (ShopifyVoiceAssistant.isPlayingAnswerTTS s) eqn:P,
        (ShopifyVoiceAssistant.answerAudioRef s) eqn:E;
        handler; rewrite ?P, ?E; handler; rewrite ?P, ?E; repeat split.
  - intros s H. cbv zeta. unfold Prototype.playTTS. rewrite H. handler. auto.
  - intros s. cbv zeta. unfold Prototype.playTTS.
    destruct (Prototype.isPlayingTTS s) eqn:P; handler; rewrite ?P; handler;
      repeat split.
Qed.

(** The answer playing, a quarter of the way through, when the toggle is
    pressed. *)
Lemma toggle_while_playing_resets_witness :
  let s := fst (ShopifyVoiceAssistant.run
                  [ ShopifyVoiceAssistant.ev_toggle ShopifyVoiceAssistant.answer_playback;
                    ShopifyVoiceAssistant.ev_answer_tts_settled (Ok (lit "/api/tts/audio/1"));
                    ShopifyVoiceAssistant.ev_answer_tts_fetched (Ok None) None;
                    ShopifyVoiceAssistant.ev_audio_time ShopifyVoiceAssistant.answer_playback 3 (Some 12) ]
                  ShopifyVoiceAssistant.initial) in
  (ShopifyVoiceAssistant.isPlayingAnswerTTS s = true
   /\ ShopifyVoiceAssistant.answerTtsProgress s == 25
   /\ ShopifyVoiceAssistant.answerAudioRef s
      = Some {| ShopifyVoiceAssistant.paused := false; ShopifyVoiceAssistant.currentTime := 3 |})
  /\ let after := ShopifyVoiceAssistant.toggle ShopifyVoiceAssistant.answer_playback s in
     ShopifyVoiceAssistant.isPlayingAnswerTTS (fst after) = false
     /\ ShopifyVoiceAssistant.answerTtsProgress (fst after) = 0
     /\ ShopifyVoiceAssistant.answerAudioRef (fst after)
        = Some {| ShopifyVoiceAssistant.paused := true; ShopifyVoiceAssistant.currentTime := 0 |}.
Proof.
  intros s. split.
  - repeat split.
  - destruct (proj1 toggle_while_playing_resets ShopifyVoiceAssistant.answer_playback s eq_refl)
      as (A & B & C & _).
    split; [exact A | split; [exact B | exact C]].
Defined.

(* ================================================================== *)
(** ** Starting and stopping a recording *)
(* ================================================================== *)

(** C5, as stated, fails in ShopifyVoiceAssistant: stopping a session
    that is recording sets the recording state straight to idle. *)
Lemma stop_goes_straight_to_idle :
  let b := {| ShopifyVoiceAssistant.microphone := Shop.granted;
              ShopifyVoiceAssistant.opusSupported := true;
              ShopifyVoiceAssistant.speechRecognition := true |} in
  let session := fst (ShopifyVoiceAssistant.startRecording b ShopifyVoiceAssistant.initial) in
  ShopifyVoiceAssistant.recordingState session = Shop.recording
  /\ ShopifyVoiceAssistant.recordingState (fst (ShopifyVoiceAssistant.stopRecording session))
     = Shop.idle.
Proof. split; reflexivity. Qed.

(** C5, amended: in VoiceChat the stop operation leaves the recording
    state for the transcribing state and sends the stop message to the
    Transcript Source when the socket is open, nothing when it is not
    (both in [stopRecording] and in the [onstop] of the MediaRecorder
    variant); in ShopifyVoiceAssistant and its prototype, which have no
    transcribing state, [stopRecording] sets the state to idle, and
    ShopifyVoiceAssistant stops the recogniser it holds. *)
Theorem stop_operation_by_component :
  (forall s : VoiceChat.State,
     let after := VoiceChat.stopRecording s in
     VoiceChat.status (fst after) = VoiceChat.transcribing
     /\ VoiceChat.isTranscribing (fst after) = true
     /\ VoiceChat.isRecording (fst after) = false
     /\ VoiceChat.sent (snd after)
        = if VoiceChat.is_open (VoiceChat.wsRef s)
          then [VoiceChat.stop (VoiceChat.language (VoiceChat.userSettings s))]
          else [])
  /\ (forall (mr : VoiceChat.MediaRecorder) (s : VoiceChat.State),
     let after := VoiceChat.Recorder.onstop mr s in
     VoiceChat.status (fst after) = VoiceChat.transcribing
     /\ VoiceChat.isTranscribing (fst after) = true
     /\ VoiceChat.isRecording (fst after) = false
     /\ VoiceChat.sent (snd after)
        = if VoiceChat.is_open (VoiceChat.wsRef s)
          then [VoiceChat.stop (VoiceChat.mr_userLanguage mr)]
          else [])
  /\ (forall s : ShopifyVoiceAssistant.State,
     let after := ShopifyVoiceAssistant.stopRecording s in
     ShopifyVoiceAssistant.recordingState (fst after) = Shop.idle
     /\ ShopifyVoiceAssistant.recogniser_stopped (snd after)
        = match ShopifyVoiceAssistant.recognitionRef s with
          | Some _ => true
          | None => false
          end)
  /\ (forall s : Prototype.State,
     Prototype.recordingState (fst (Prototype.stopRecording s)) = Shop.idle).
Proof.
  split; [|split; [|split]].
  - intros s. cbv zeta. unfold VoiceChat.stopRecording.
    destruct (VoiceChat.processorRef s), (VoiceChat.audioContextRef s),
      (VoiceChat.audioStreamRef s), (VoiceChat.is_open (VoiceChat.wsRef s));
      handler; auto.
  - intros mr s. cbv zeta. unfold VoiceChat.Recorder.onstop.
    destruct (VoiceChat.is_open (VoiceChat.wsRef s)); handler; auto.
  - intros s. cbv zeta. unfold ShopifyVoiceAssistant.stopRecording.
    destruct (ShopifyVoiceAssistant.mediaRecorderRef s) as [[[] ? ?]|],
      (ShopifyVoiceAssistant.recognitionRef s),
      (ShopifyVoiceAssistant.audioBlob s),
      (truthy (ShopifyVoiceAssistant.finalTranscript s));
      handler; split; reflexivity.
  - intros s. unfold Prototype.stopRecording.
    destruct (Prototype.mediaRecorderRef s) as [[[] ?]|]; reflexivity.
Qed.

(** C7: when the user declines microphone access the start operation
    fails: the state is left as it was, so an idle session stays idle and
    no recorder is started, and one alert tells the user.  This holds for
    ShopifyVoiceAssistant, for its prototype and for VoiceChat. *)
Theorem microphone_refused_keeps_session_idle :
  (forall (b : ShopifyVoiceAssistant.Browser) (s : ShopifyVoiceAssistant.State),
     ShopifyVoiceAssistant.microphone b = Shop.denied ->
     ShopifyVoiceAssistant.recordingState s = Shop.idle ->
     let after := ShopifyVoiceAssistant.startRecording b s in
     fst after = s
     /\ ShopifyVoiceAssistant.recordingState (fst after) = Shop.idle
     /\ snd after = [ShopifyVoiceAssistant.alert
          (lit "Microphone access denied. Please allow microphone access in your browser settings.")])
  /\ (forall (opusSupported : bool) (s : Prototype.State),
     Prototype.recordingState s = Shop.idle ->
     let after := Prototype.startRecording Shop.denied opusSupported s in
     fst after = s
     /\ Prototype.recordingState (fst after) = Shop.idle
     /\ snd after = [Prototype.alert
          (lit "Microphone access denied. Please allow microphone access in your browser settings.")])
  /\ (forall (s : VoiceChat.State),
     VoiceChat.status s = VoiceChat.ready ->
     VoiceChat.isRecording s = false ->
     let after := VoiceChat.startRecording VoiceChat.denied s in
     fst after = s
     /\ VoiceChat.status (fst after) = VoiceChat.ready
     /\ VoiceChat.isRecording (fst after) = false
     /\ snd after = [VoiceChat.alert
          (lit "Failed to access microphone. Please check permissions.")]).
Proof.
  split; [|split].
  - intros b s Hb Hs. cbv zeta.
    unfold ShopifyVoiceAssistant.startRecording. rewrite Hb. cbn. auto.
  - intros opus s Hs. cbn. auto.
  - intros s Hs Hr. cbn. auto.
Qed.

(** The first start of a session, refused. *)
Lemma microphone_refused_keeps_session_idle_witness :
  let b := {| ShopifyVoiceAssistant.microphone := Shop.denied;
              ShopifyVoiceAssistant.opusSupported := true;
              ShopifyVoiceAssistant.speechRecognition := true |} in
  let after := ShopifyVoiceAssistant.startRecording b ShopifyVoiceAssistant.initial in
  fst after = ShopifyVoiceAssistant.initial
  /\ ShopifyVoiceAssistant.recordingState (fst after) = Shop.idle
  /\ snd after = [ShopifyVoiceAssistant.alert
       (lit "Microphone access denied. Please allow microphone access in your browser settings.")].
Proof.
  exact (proj1 microphone_refused_keeps_session_idle
           {| ShopifyVoiceAssistant.microphone := Shop.denied;
              ShopifyVoiceAssistant.opusSupported := true;
              ShopifyVoiceAssistant.speechRecognition := true |}
           ShopifyVoiceAssistant.initial eq_refl eq_refl).
Defined.

(* ================================================================== *)
(** ** Queries and prices *)
(* ================================================================== *)

(** C6: a query text that is empty after trimming is not submitted: the
    request function returns before it touches the state or issues the
    request to the pipeline. *)
Theorem blank_query_is_not_submitted
    (agentLanguage queryText : jsstring) (s : VoiceChat.State) :
  trim queryText = [] ->
  VoiceChat.requestAgentResponse agentLanguage queryText s = (s, []).
Proof.
  intros H. unfold VoiceChat.requestAgentResponse. rewrite H. reflexivity.
Qed.

(** A query of two spaces. *)
Lemma blank_query_is_not_submitted_witness :
  trim (lit "  ") = []
  /\ VoiceChat.requestAgentResponse (lit "en") (lit "  ") VoiceChat.initial
     = (VoiceChat.initial, []).
Proof.
  split; [reflexivity|].
  apply (blank_query_is_not_submitted (lit "en") (lit "  ") VoiceChat.initial).
  reflexivity.
Defined.

(** C8: every document returned in a result whose constraints carry the
    maximum price 15 costs at most 15.  The retriever's merge drops every
    gathered document priced above the bound, whatever the sources sent;
    the client shows the products of the reply as they are, with the
    reply's constraints, or else the mock result, whose bound is 15 and
    whose three products cost at most 15; the prototype shows the mock
    result only. *)
Theorem price_bound_respected :
  (forall tags_present limit (cs : Retriever.ConstraintSet) sources,
     Retriever.max_price cs = Some 15 ->
     Forall (fun d => Retriever.price d <= 15)
            (Retriever.merge tags_present limit cs sources))
  /\ (Shop.max_price Shop.mockResult = Some 15
      /\ Forall (Shop.within 15) (Shop.products Shop.mockResult))
  /\ (forall closure_agentSteps (r : Response ShopifyVoiceAssistant.QueryData)
             (s : ShopifyVoiceAssistant.State),
     exists res,
       ShopifyVoiceAssistant.result
         (fst (ShopifyVoiceAssistant.fetchQueryResults_settled closure_agentSteps r s))
       = Some res
       /\ match r with
          | Ok data =>
              Shop.products res = array_or_empty (ShopifyVoiceAssistant.d_products data)
              /\ Shop.constraints res = ShopifyVoiceAssistant.d_constraints data
          | _ => res = Shop.mockResult
          end)
  /\ (forall s : Prototype.State,
     let '(s', _, _) := Prototype.pipeline_run 4 s in
     Prototype.result s' = Some Shop.mockResult).
Proof.
  split; [|split; [|split]].
  - intros tags_present limit cs sources H. apply Forall_forall. intros d Hd.
    apply RetrieverFacts.In_merge in Hd. destruct Hd as [_ Hd].
    eapply RetrieverFacts.admissible_max_price; eassumption.
  - split; [reflexivity|].
    repeat constructor; unfold Shop.within; cbn; discriminate.
  - intros c r s. destruct r as [m|st d|data]; eexists; (split; [reflexivity|]); auto.
  - intros s. reflexivity.
Qed.

(** Two sources that answer and one that does not: the document priced
    20 is dropped, the one priced exactly 15 is kept. *)
Lemma price_bound_respected_witness :
  let doc (i : jsstring) (p s : Q) :=
    {| Retriever.doc_id := i; Retriever.title := lit "Cleaner"; Retriever.price := p;
       Retriever.rating := 4; Retriever.ratingCount := 10; Retriever.brand := [];
       Retriever.material := []; Retriever.content := []; Retriever.score := s;
       Retriever.provenance := Retriever.private_doc i |} in
  let cs := {| Retriever.min_price := None; Retriever.max_price := Some 15;
               Retriever.tags := []; Retriever.brands := [] |} in
  let sources := [ Some [doc (lit "a") 12.49 0.5; doc (lit "b") 20 0.9]; None;
                   Some [doc (lit "c") 15 0.7] ] in
  Retriever.merge (fun _ _ => true) 10 cs sources
  = [doc (lit "c") 15 0.7; doc (lit "a") 12.49 0.5]
  /\ Forall (fun d => Retriever.price d <= 15)
            (Retriever.merge (fun _ _ => true) 10 cs sources).
Proof.
  intros doc cs sources. split; [reflexivity|].
  exact (proj1 price_bound_respected (fun _ _ => true) 10%nat cs sources eq_refl).
Defined.

(* ================================================================== *)
(** ** Audio encoding *)
(* ================================================================== *)

(** C9: in the PCM encoder every input sample is clamped to [-1, 1]
    before it is scaled, so the scaled value is stored into the
    [Int16Array] without wrapping around, and every 16-bit sample that is
    emitted lies in [-32768, 32767]. *)
Theorem pcm_encoder_never_overflows (inputData : list number) :
  Forall (fun x => VoiceChat.clamped (VoiceChat.pcm_clamp x)) inputData
  /\ Forall2 (fun x v => VoiceChat.fits_int16 (VoiceChat.pcm_scaled x) v)
             inputData (VoiceChat.pcmData inputData)
  /\ Forall (fun v => (-32768 <= v <= 32767)%Z) (VoiceChat.pcmData inputData)
  /\ forall p s data lang,
       In (VoiceChat.ws_send (VoiceChat.audio data lang))
          (snd (VoiceChat.onaudioprocess p inputData s)) ->
       data = VoiceChat.pcmData inputData
       /\ Forall (fun v => (-32768 <= v <= 32767)%Z) data.
Proof.
  assert (R : Forall (fun v => (-32768 <= v <= 32767)%Z) (VoiceChat.pcmData inputData)).
  { unfold VoiceChat.pcmData. apply Forall_map, Forall_forall.
    intros x _. apply ToInt16_range. }
  repeat split.
  - apply Forall_forall. intros x _. apply pcm_clamp_clamped.
  - unfold VoiceChat.pcmData. induction inputData as [|x l IH]; simpl; constructor.
    + apply pcm_scaled_fits.
    + apply IH. now inversion R.
  - exact R.
  - destruct (onaudioprocess_effects p inputData s) as [E|E];
      rewrite E in H; simpl in H; [tauto|]. destruct H as [H|[]]. congruence.
  - destruct (onaudioprocess_effects p inputData s) as [E|E];
      rewrite E in H; simpl in H; [tauto|]. destruct H as [H|[]].
    inversion H; subst. exact R.
Qed.

(** A recording session with its socket open, fed a buffer that holds a
    sample in range, one out of range and [NaN]. *)
Lemma pcm_encoder_never_overflows_witness :
  let s := fst (VoiceChat.run [ VoiceChat.ev_start VoiceChat.granted;
                                VoiceChat.ev_ws_opened;
                                VoiceChat.ev_start_ready (lit "en") ]
                              VoiceChat.initial) in
  let p := {| VoiceChat.proc_userLanguage := lit "en" |} in
  let inputData := [Fin 0.5; Fin (-2); NaN] in
  snd (VoiceChat.onaudioprocess p inputData s)
  = [VoiceChat.ws_send (VoiceChat.audio [16383; -32768; 0]%Z (lit "en"))]
  /\ Forall (fun v => (-32768 <= v <= 32767)%Z) [16383; -32768; 0]%Z.
Proof.
  intros s p inputData. split; [reflexivity|].
  exact (proj2 (proj2 (proj2 (proj2 (pcm_encoder_never_overflows inputData)))
                 p s [16383; -32768; 0]%Z (lit "en") (or_introl eq_refl))).
Defined.

(* ================================================================== *)
(** ** Voices *)
(* ================================================================== *)

(** C10, as stated, fails for the agent: with two voices listed and the
    agent's voice not among them, the agent falls back to the second
    listed voice, not to the first. *)
Lemma agent_falls_back_to_second_voice :
  let voices := [ {| VoiceChat.vo_id := lit "a"; VoiceChat.vo_name := lit "Ann";
                     VoiceChat.vo_language := lit "en" |};
                  {| VoiceChat.vo_id := lit "b"; VoiceChat.vo_name := lit "Bob";
                     VoiceChat.vo_language := lit "en" |} ] in
  let s := fst (VoiceChat.fetchVoices (Ok (Some voices)) VoiceChat.initial) in
  ~ In (VoiceChat.voiceId (VoiceChat.agentSettings VoiceChat.initial))
       (map VoiceChat.vo_id voices)
  /\ VoiceChat.voiceId (VoiceChat.agentSettings s) = lit "b"
  /\ VoiceChat.voiceId (VoiceChat.agentSettings s) <> lit "a".
Proof.
  cbv zeta. split; [|split].
  - intros H. vm_compute in H. destruct H as [H|[H|[]]]; discriminate H.
  - reflexivity.
  - intros H. vm_compute in H. discriminate H.
Qed.

(** C10, amended: after the voice-loading operation the list of available
    voices is never empty.  When the request is rejected, comes back with
    a status that is not OK, or yields no voice, the built-in default
    voices are used and the selected voices are left alone.  After a load
    that yields voices, the list is the loaded one and the selected user
    and agent voices are both in it: a selection that is listed is kept,
    otherwise the user falls back to the first listed voice and the agent
    to the second, or to the first when there is only one. *)
Theorem voices_after_loading
    (r : Response (option (list VoiceChat.VoiceOption))) (s : VoiceChat.State) :
  let s' := fst (VoiceChat.fetchVoices r s) in
  let listed (voices : list VoiceChat.VoiceOption) (v : VoiceChat.VoiceSettings) :=
    existsb (fun voice => eqb (VoiceChat.vo_id voice) (VoiceChat.voiceId v)) voices in
  VoiceChat.availableVoices s' <> []
  /\ match r with
     | Ok (Some ((first :: rest) as voices)) =>
         VoiceChat.availableVoices s' = voices
         /\ In (VoiceChat.voiceId (VoiceChat.userSettings s')) (map VoiceChat.vo_id voices)
         /\ In (VoiceChat.voiceId (VoiceChat.agentSettings s')) (map VoiceChat.vo_id voices)
         /\ VoiceChat.voiceId (VoiceChat.userSettings s')
            = (if listed voices (VoiceChat.userSettings s)
               then VoiceChat.voiceId (VoiceChat.userSettings s)
               else VoiceChat.vo_id first)
         /\ VoiceChat.voiceId (VoiceChat.agentSettings s')
            = (if listed voices (VoiceChat.agentSettings s)
               then VoiceChat.voiceId (VoiceChat.agentSettings s)
               else VoiceChat.vo_id (hd first rest))
     | _ =>
         VoiceChat.availableVoices s' = VoiceChat.DEFAULT_VOICES
         /\ VoiceChat.userSettings s' = VoiceChat.userSettings s
         /\ VoiceChat.agentSettings s' = VoiceChat.agentSettings s
     end.
Proof.
  cbv zeta. destruct r as [m|st d|[[|first rest]|]];
    [handler; split; [discriminate|auto] ..| |handler; split; [discriminate|auto]].
  unfold VoiceChat.fetchVoices.
  change (0 <? List.length (first :: rest))%nat with true. handler.
  rewrite !syncSettingsWithVoices_voiceId.
  split; [discriminate|]. split; [reflexivity|].
  set (voices := first :: rest).
  assert (U : forall fb v, In (VoiceChat.vo_id fb) (map VoiceChat.vo_id voices) ->
            In (if existsb (fun voice => eqb (VoiceChat.vo_id voice) (VoiceChat.voiceId v)) voices
                then VoiceChat.voiceId v else VoiceChat.vo_id fb)
               (map VoiceChat.vo_id voices)).
  { intros fb v Hfb.
    destruct (existsb _ voices) eqn:E; [now apply existsb_id_In|exact Hfb]. }
  subst voices.
  destruct rest as [|second rest]; cbn [VoiceChat.voice_or hd];
    repeat split; apply U; cbn; auto.
Qed.
